(** * BookStore API (src/app.py): a shallow embedding of the request handlers

    The Flask application keeps two module-level dictionaries, [books] and
    [authors], and exposes one handler per route.  Each handler is embedded
    as a function in a small state-and-exception monad over the pair of
    tables.  What a handler reads from its environment is passed in:
    the decoded request body ([request.get_json()]), the query arguments
    ([request.args.get]), the value of [str(uuid.uuid4())] and the reading
    of [datetime.utcnow()]. *)

From Stdlib Require Import ZArith PrimFloat FloatOps SpecFloat.
From stdpp Require Import gmap strings list fin_maps.

Set Warnings "-register-all,-inexact-float".
Local Open Scope Z_scope.

(** ** Python values *)

Module Py.

(** What [json.loads] produces: [None], [bool], [int], [float], [str],
    [list] and [dict] with string keys.  Python integers are unbounded,
    Python floats are IEEE 754 binary64. *)
Inductive json : Type :=
  | JNull
  | JBool (b : bool)
  | JInt (z : Z)
  | JFloat (f : float)
  | JStr (s : string)
  | JArr (l : list json)
  | JObj (d : gmap string json).

(** The exceptions the handlers can meet.  [BadRequest] stands for the
    HTTP exception [request.get_json()] aborts with when the body cannot
    be decoded; the others escape the handler as an internal error. *)
Inductive pyexn : Type :=
  | TypeError
  | KeyError
  | AttributeError
  | BadRequest.

Definition Exc (A : Type) : Type := pyexn + A.

(** [v == s] for a string [s]: only an equal string compares equal. *)
Definition eq_str (v : json) (s : string) : bool :=
  match v with
  | JStr s' => bool_decide (s' = s)
  | _ => false
  end.

(** [s1 in s2] on strings is the substring test. *)
Definition substring_of (s1 s2 : string) : bool :=
  match String.index 0 s1 s2 with
  | Some _ => true
  | None => false
  end.

(** [key in data]: key membership on a dict, element membership on a
    list, substring test on a string, [TypeError] otherwise. *)
Definition contains (key : string) (data : json) : Exc bool :=
  match data with
  | JObj d => inr (bool_decide (is_Some (d !! key)))
  | JArr l => inr (existsb (fun v => eq_str v key) l)
  | JStr s => inr (substring_of key s)
  | JNull | JBool _ | JInt _ | JFloat _ => inl TypeError
  end.

(** [data[key]] with a string key. *)
Definition getitem (data : json) (key : string) : Exc json :=
  match data with
  | JObj d =>
      match d !! key with
      | Some v => inr v
      | None => inl KeyError
      end
  | _ => inl TypeError
  end.

(** [data.get(key, dflt)]: only dicts have the method. *)
Definition get (data : json) (key : string) (dflt : json) : Exc json :=
  match data with
  | JObj d => inr (default dflt (d !! key))
  | _ => inl AttributeError
  end.

(** Exact comparison of an integer with a float, as CPython does it:
    [None] when the float is a NaN. *)
Definition int_compare_float (z : Z) (x : float) : option comparison :=
  match Prim2SF x with
  | S754_nan => None
  | S754_infinity false => Some Lt
  | S754_infinity true => Some Gt
  | S754_zero _ => Some (z ?= 0)
  | S754_finite s m e =>
      let v := if s then Z.neg m else Z.pos m in
      if 0 <=? e then Some (z ?= v * 2 ^ e) else Some (z * 2 ^ (- e) ?= v)
  end.

Definition as_number (v : json) : option (Z + float) :=
  match v with
  | JInt z => Some (inl z)
  | JBool b => Some (inl (Z.b2z b))
  | JFloat f => Some (inr f)
  | _ => None
  end.

(** [v >= x] for a float [x]. *)
Definition ge_float (v : json) (x : float) : Exc bool :=
  match as_number v with
  | Some (inr f) => inr (PrimFloat.leb x f)
  | Some (inl z) =>
      inr (match int_compare_float z x with
           | Some Gt | Some Eq => true
           | Some Lt | None => false
           end)
  | None => inl TypeError
  end.

(** [v <= x] for a float [x]. *)
Definition le_float (v : json) (x : float) : Exc bool :=
  match as_number v with
  | Some (inr f) => inr (PrimFloat.leb f x)
  | Some (inl z) =>
      inr (match int_compare_float z x with
           | Some Lt | Some Eq => true
           | Some Gt | None => false
           end)
  | None => inl TypeError
  end.

(** A list comprehension [[b for b in l if p b]] whose condition may
    raise: the first element on which it raises aborts the whole. *)
Fixpoint comprehension {A : Type} (p : A -> Exc bool) (l : list A)
  : Exc (list A) :=
  match l with
  | [] => inr []
  | x :: l' =>
      match p x with
      | inl e => inl e
      | inr keep =>
          match comprehension p l' with
          | inl e => inl e
          | inr r => inr (if keep then x :: r else r)
          end
      end
  end.

(** Truthiness of an optional string: [None] and [''] are falsy. *)
Definition truthy (o : option string) : bool :=
  match o with
  | Some s => negb (bool_decide (s = ""))
  | None => false
  end.

End Py.

(** ** Insertion-ordered dictionaries

    A Python [dict] iterates in insertion order; assigning to a key that
    is present keeps its position, assigning to a new key appends it. *)

Module Dict.

Section Ops.
Context {V : Type}.

Fixpoint get (k : string) (d : list (string * V)) : option V :=
  match d with
  | [] => None
  | (k', v) :: d' => if decide (k = k') then Some v else get k d'
  end.

Definition contains (k : string) (d : list (string * V)) : bool :=
  match get k d with
  | Some _ => true
  | None => false
  end.

(** [d[k] = v] *)
Fixpoint set (k : string) (v : V) (d : list (string * V))
  : list (string * V) :=
  match d with
  | [] => [(k, v)]
  | (k', v') :: d' =>
      if decide (k = k') then (k, v) :: d' else (k', v') :: set k v d'
  end.

(** [del d[k]]: no entry under [k] remains. *)
Fixpoint del (k : string) (d : list (string * V)) : list (string * V) :=
  match d with
  | [] => []
  | (k', v') :: d' =>
      if decide (k = k') then del k d' else (k', v') :: del k d'
  end.

(** In-place mutation of the object stored under [k]. *)
Fixpoint alter (f : V -> V) (k : string) (d : list (string * V))
  : list (string * V) :=
  match d with
  | [] => []
  | (k', v') :: d' =>
      if decide (k = k') then (k', f v') :: d' else (k', v') :: alter f k d'
  end.

Definition keys (d : list (string * V)) : list string := map fst d.
Definition values (d : list (string * V)) : list V := map snd d.

End Ops.

End Dict.

(** ** The application *)

Module App.
Import Py.

(** Timestamps.  [datetime.utcnow().isoformat() + "Z"] renders the clock
    reading as text; a record's [created_at] and [updated_at] are kept
    here as the reading itself, in microseconds since the Unix epoch. *)
Definition timestamp : Type := Z.

(** A book record: the nine keys every stored book dict has.  The values
    taken from a request body are stored as they come, unvalidated. *)
Record book : Type := Book {
  b_id : string;
  b_title : json;
  b_author_id : json;
  b_isbn : json;
  b_published_year : json;
  b_price : json;
  b_stock : json;
  b_created_at : timestamp;
  b_updated_at : timestamp
}.

Record author : Type := Author {
  a_id : string;
  a_name : json;
  a_birth_year : json;
  a_nationality : json;
  a_created_at : timestamp;
  a_updated_at : timestamp
}.

(** The two module-level tables. *)
Record store : Type := Store {
  books : list (string * book);
  authors : list (string * author)
}.

Definition with_books (f : list (string * book) -> list (string * book))
  (s : store) : store :=
  {| books := f (books s); authors := authors s |}.

Definition with_authors
  (f : list (string * author) -> list (string * author))
  (s : store) : store :=
  {| books := books s; authors := f (authors s) |}.

(** "2024-01-01T00:00:00Z" *)
Definition seed_time : timestamp := 1704067200000000.

Definition seed_books : list (string * book) :=
  [ ("1", {| b_id := "1"; b_title := JStr "The Great Gatsby";
             b_author_id := JStr "1"; b_isbn := JStr "978-0-7432-7356-5";
             b_published_year := JInt 1925; b_price := JFloat 12.99;
             b_stock := JInt 42;
             b_created_at := seed_time; b_updated_at := seed_time |});
    ("2", {| b_id := "2"; b_title := JStr "To Kill a Mockingbird";
             b_author_id := JStr "2"; b_isbn := JStr "978-0-06-112008-4";
             b_published_year := JInt 1960; b_price := JFloat 14.99;
             b_stock := JInt 28;
             b_created_at := seed_time; b_updated_at := seed_time |});
    ("3", {| b_id := "3"; b_title := JStr "1984";
             b_author_id := JStr "3"; b_isbn := JStr "978-0-452-28423-4";
             b_published_year := JInt 1949; b_price := JFloat 13.99;
             b_stock := JInt 35;
             b_created_at := seed_time; b_updated_at := seed_time |}) ].

Definition seed_authors : list (string * author) :=
  [ ("1", {| a_id := "1"; a_name := JStr "F. Scott Fitzgerald";
             a_birth_year := JInt 1896; a_nationality := JStr "American";
             a_created_at := seed_time; a_updated_at := seed_time |});
    ("2", {| a_id := "2"; a_name := JStr "Harper Lee";
             a_birth_year := JInt 1926; a_nationality := JStr "American";
             a_created_at := seed_time; a_updated_at := seed_time |});
    ("3", {| a_id := "3"; a_name := JStr "George Orwell";
             a_birth_year := JInt 1903; a_nationality := JStr "British";
             a_created_at := seed_time; a_updated_at := seed_time |}) ].

Definition seed : store := {| books := seed_books; authors := seed_authors |}.

(** *** Responses *)

Inductive body : Type :=
  | Error (msg : string)                                (* {"error": msg} *)
  | BookBody (b : book)
  | BookList (bs : list book) (count : nat)             (* {"books", "count"} *)
  | AuthorBody (a : author)
  | AuthorList (l : list author) (count : nat)          (* {"authors", "count"} *)
  | AuthorBooks (a : author) (bs : list book) (count : nat)
  | Empty.

(** The pair a handler returns: the body and the status code. *)
Definition response : Type := body * Z.

(** *** The handler monad: the tables are threaded through, an exception
    aborts the handler and leaves the tables as they are at that point. *)

Definition Handler (A : Type) : Type := store -> store * Exc A.

Definition ret {A : Type} (a : A) : Handler A := fun s => (s, inr a).

Definition bind {A B : Type} (m : Handler A) (k : A -> Handler B)
  : Handler B :=
  fun s =>
    match m s with
    | (s', inl e) => (s', inl e)
    | (s', inr a) => k a s'
    end.

Definition eval {A : Type} (c : Exc A) : Handler A := fun s => (s, c).
Definition gets {A : Type} (f : store -> A) : Handler A :=
  fun s => (s, inr (f s)).
Definition modify (f : store -> store) : Handler unit :=
  fun s => (f s, inr tt).

#[global] Instance handler_bind : MBind Handler :=
  fun A B k m => bind m k.

(** [books[book_id]] *)
Definition books_getitem (book_id : string) : Handler book :=
  fun s =>
    match Dict.get book_id (books s) with
    | Some b => (s, inr b)
    | None => (s, inl KeyError)
    end.

Definition authors_getitem (author_id : string) : Handler author :=
  fun s =>
    match Dict.get author_id (authors s) with
    | Some a => (s, inr a)
    | None => (s, inl KeyError)
    end.

(** The validation loop
    [for field in required_fields: if field not in data: return ...]:
    the first field found missing, if any. *)
Fixpoint first_missing (required_fields : list string) (data : json)
  : Exc (option string) :=
  match required_fields with
  | [] => inr None
  | field :: rest =>
      match contains field data with
      | inl e => inl e
      | inr false => inr (Some field)
      | inr true => first_missing rest data
      end
  end.

Definition missing_field (field : string) : response :=
  (Error ("Missing required field: " +:+ field), 400).

Definition book_required_fields : list string :=
  ["title"; "author_id"; "isbn"; "published_year"; "price"].

Definition author_required_fields : list string :=
  ["name"; "birth_year"; "nationality"].

(** *** Books *)

(** [GET /api/v1/books].  [author_id] is [request.args.get('author_id')];
    [min_price] and [max_price] are [request.args.get(_, type=float)],
    which is [None] when the argument is absent or is not a float. *)
Definition get_books (author_id : option string)
  (min_price max_price : option float) : Handler response :=
  filtered_books ← gets (fun s => Dict.values (books s));
  filtered_books ←
    (if truthy author_id
     then ret (filter (fun b => eq_str (b_author_id b) (default "" author_id))
                 filtered_books)
     else ret filtered_books);
  filtered_books ←
    match min_price with
    | Some min_price =>
        eval (comprehension (fun b => ge_float (b_price b) min_price)
                filtered_books)
    | None => ret filtered_books
    end;
  filtered_books ←
    match max_price with
    | Some max_price =>
        eval (comprehension (fun b => le_float (b_price b) max_price)
                filtered_books)
    | None => ret filtered_books
    end;
  ret (BookList filtered_books (length filtered_books), 200).

(** [GET /api/v1/books/<book_id>].  A stored record is a non-empty dict,
    so [not book] holds exactly when [books.get] gave [None]. *)
Definition get_book (book_id : string) : Handler response :=
  book ← gets (fun s => Dict.get book_id (books s));
  match book with
  | None => ret (Error "Book not found", 404)
  | Some book => ret (BookBody book, 200)
  end.

(** [POST /api/v1/books] *)
Definition create_book (uuid4 : string) (utcnow : timestamp)
  (get_json : Exc json) : Handler response :=
  data ← eval get_json;
  missing ← eval (first_missing book_required_fields data);
  match missing with
  | Some field => ret (missing_field field)
  | None =>
      let book_id := uuid4 in
      let timestamp := utcnow in
      title ← eval (getitem data "title");
      author_id ← eval (getitem data "author_id");
      isbn ← eval (getitem data "isbn");
      published_year ← eval (getitem data "published_year");
      price ← eval (getitem data "price");
      stock ← eval (get data "stock" (JInt 0));
      let new_book :=
        {| b_id := book_id; b_title := title; b_author_id := author_id;
           b_isbn := isbn; b_published_year := published_year;
           b_price := price; b_stock := stock;
           b_created_at := timestamp; b_updated_at := timestamp |} in
      modify (with_books (Dict.set book_id new_book)) ;;
      ret (BookBody new_book, 201)
  end.

(** [PUT /api/v1/books/<book_id>] *)
Definition update_book (book_id : string) (utcnow : timestamp)
  (get_json : Exc json) : Handler response :=
  present ← gets (fun s => Dict.contains book_id (books s));
  if negb present then ret (Error "Book not found", 404) else
  data ← eval get_json;
  missing ← eval (first_missing book_required_fields data);
  match missing with
  | Some field => ret (missing_field field)
  | None =>
      old ← books_getitem book_id;
      let created_at := b_created_at old in
      title ← eval (getitem data "title");
      author_id ← eval (getitem data "author_id");
      isbn ← eval (getitem data "isbn");
      published_year ← eval (getitem data "published_year");
      price ← eval (getitem data "price");
      stock ← eval (get data "stock" (JInt 0));
      let updated_book :=
        {| b_id := book_id; b_title := title; b_author_id := author_id;
           b_isbn := isbn; b_published_year := published_year;
           b_price := price; b_stock := stock;
           b_created_at := created_at; b_updated_at := utcnow |} in
      modify (with_books (Dict.set book_id updated_book)) ;;
      ret (BookBody updated_book, 200)
  end.

(** Field assignments [book[key] = v] on a book dict. *)
Definition set_title (v : json) (b : book) : book :=
  {| b_id := b_id b; b_title := v; b_author_id := b_author_id b;
     b_isbn := b_isbn b; b_published_year := b_published_year b;
     b_price := b_price b; b_stock := b_stock b;
     b_created_at := b_created_at b; b_updated_at := b_updated_at b |}.
Definition set_author_id (v : json) (b : book) : book :=
  {| b_id := b_id b; b_title := b_title b; b_author_id := v;
     b_isbn := b_isbn b; b_published_year := b_published_year b;
     b_price := b_price b; b_stock := b_stock b;
     b_created_at := b_created_at b; b_updated_at := b_updated_at b |}.
Definition set_isbn (v : json) (b : book) : book :=
  {| b_id := b_id b; b_title := b_title b; b_author_id := b_author_id b;
     b_isbn := v; b_published_year := b_published_year b;
     b_price := b_price b; b_stock := b_stock b;
     b_created_at := b_created_at b; b_updated_at := b_updated_at b |}.
Definition set_published_year (v : json) (b : book) : book :=
  {| b_id := b_id b; b_title := b_title b; b_author_id := b_author_id b;
     b_isbn := b_isbn b; b_published_year := v;
     b_price := b_price b; b_stock := b_stock b;
     b_created_at := b_created_at b; b_updated_at := b_updated_at b |}.
Definition set_price (v : json) (b : book) : book :=
  {| b_id := b_id b; b_title := b_title b; b_author_id := b_author_id b;
     b_isbn := b_isbn b; b_published_year := b_published_year b;
     b_price := v; b_stock := b_stock b;
     b_created_at := b_created_at b; b_updated_at := b_updated_at b |}.
Definition set_stock (v : json) (b : book) : book :=
  {| b_id := b_id b; b_title := b_title b; b_author_id := b_author_id b;
     b_isbn := b_isbn b; b_published_year := b_published_year b;
     b_price := b_price b; b_stock := v;
     b_created_at := b_created_at b; b_updated_at := b_updated_at b |}.
Definition set_updated_at (t : timestamp) (b : book) : book :=
  {| b_id := b_id b; b_title := b_title b; b_author_id := b_author_id b;
     b_isbn := b_isbn b; b_published_year := b_published_year b;
     b_price := b_price b; b_stock := b_stock b;
     b_created_at := b_created_at b; b_updated_at := t |}.

(** [if key in data: book[key] = data[key]], where [book] is the object
    stored in the table under [book_id], mutated in place. *)
Definition patch_key (book_id : string) (data : json) (key : string)
  (assign : json -> book -> book) : Handler unit :=
  present ← eval (contains key data);
  if (present : bool)
  then v ← eval (getitem data key);
       modify (with_books (Dict.alter (assign v) book_id))
  else ret tt.

(** [PATCH /api/v1/books/<book_id>] *)
Definition partial_update_book (book_id : string) (utcnow : timestamp)
  (get_json : Exc json) : Handler response :=
  present ← gets (fun s => Dict.contains book_id (books s));
  if negb present then ret (Error "Book not found", 404) else
  data ← eval get_json;
  patch_key book_id data "title" set_title ;;
  patch_key book_id data "author_id" set_author_id ;;
  patch_key book_id data "isbn" set_isbn ;;
  patch_key book_id data "published_year" set_published_year ;;
  patch_key book_id data "price" set_price ;;
  patch_key book_id data "stock" set_stock ;;
  modify (with_books (Dict.alter (set_updated_at utcnow) book_id)) ;;
  book ← books_getitem book_id;
  ret (BookBody book, 200).

(** [DELETE /api/v1/books/<book_id>] *)
Definition delete_book (book_id : string) : Handler response :=
  present ← gets (fun s => Dict.contains book_id (books s));
  if negb present then ret (Error "Book not found", 404) else
  modify (with_books (Dict.del book_id)) ;;
  ret (Empty, 204).

(** *** Authors *)

(** [GET /api/v1/authors] *)
Definition get_authors : Handler response :=
  l ← gets (fun s => Dict.values (authors s));
  count ← gets (fun s => length (authors s));
  ret (AuthorList l count, 200).

(** [GET /api/v1/authors/<author_id>] *)
Definition get_author (author_id : string) : Handler response :=
  author ← gets (fun s => Dict.get author_id (authors s));
  match author with
  | None => ret (Error "Author not found", 404)
  | Some author => ret (AuthorBody author, 200)
  end.

(** [POST /api/v1/authors] *)
Definition create_author (uuid4 : string) (utcnow : timestamp)
  (get_json : Exc json) : Handler response :=
  data ← eval get_json;
  missing ← eval (first_missing author_required_fields data);
  match missing with
  | Some field => ret (missing_field field)
  | None =>
      let author_id := uuid4 in
      let timestamp := utcnow in
      name ← eval (getitem data "name");
      birth_year ← eval (getitem data "birth_year");
      nationality ← eval (getitem data "nationality");
      let new_author :=
        {| a_id := author_id; a_name := name; a_birth_year := birth_year;
           a_nationality := nationality;
           a_created_at := timestamp; a_updated_at := timestamp |} in
      modify (with_authors (Dict.set author_id new_author)) ;;
      ret (AuthorBody new_author, 201)
  end.

(** [PUT /api/v1/authors/<author_id>] *)
Definition update_author (author_id : string) (utcnow : timestamp)
  (get_json : Exc json) : Handler response :=
  present ← gets (fun s => Dict.contains author_id (authors s));
  if negb present then ret (Error "Author not found", 404) else
  data ← eval get_json;
  missing ← eval (first_missing author_required_fields data);
  match missing with
  | Some field => ret (missing_field field)
  | None =>
      old ← authors_getitem author_id;
      let created_at := a_created_at old in
      name ← eval (getitem data "name");
      birth_year ← eval (getitem data "birth_year");
      nationality ← eval (getitem data "nationality");
      let updated_author :=
        {| a_id := author_id; a_name := name; a_birth_year := birth_year;
           a_nationality := nationality;
           a_created_at := created_at; a_updated_at := utcnow |} in
      modify (with_authors (Dict.set author_id updated_author)) ;;
      ret (AuthorBody updated_author, 200)
  end.

(** [DELETE /api/v1/authors/<author_id>] *)
Definition delete_author (author_id : string) : Handler response :=
  present ← gets (fun s => Dict.contains author_id (authors s));
  if negb present then ret (Error "Author not found", 404) else
  modify (with_authors (Dict.del author_id)) ;;
  ret (Empty, 204).

(** [GET /api/v1/authors/<author_id>/books] *)
Definition get_author_books (author_id : string) : Handler response :=
  author ← gets (fun s => Dict.get author_id (authors s));
  match author with
  | None => ret (Error "Author not found", 404)
  | Some author =>
      author_books ←
        gets (fun s => filter (fun book => eq_str (b_author_id book) author_id)
                         (Dict.values (books s)));
      ret (AuthorBooks author author_books (length author_books), 200)
  end.

(** *** Requests

    One constructor per route that touches the tables.  The environment
    a handler draws from while it runs (generated identifier, clock
    reading, decoded body, query arguments) travels with the request. *)
Inductive request : Type :=
  | GET_books (author_id : option string) (min_price max_price : option float)
  | GET_book (book_id : string)
  | POST_books (uuid4 : string) (utcnow : timestamp) (get_json : Exc json)
  | PUT_book (book_id : string) (utcnow : timestamp) (get_json : Exc json)
  | PATCH_book (book_id : string) (utcnow : timestamp) (get_json : Exc json)
  | DELETE_book (book_id : string)
  | GET_authors
  | GET_author (author_id : string)
  | POST_authors (uuid4 : string) (utcnow : timestamp) (get_json : Exc json)
  | PUT_author (author_id : string) (utcnow : timestamp) (get_json : Exc json)
  | DELETE_author (author_id : string)
  | GET_author_books (author_id : string).

Definition dispatch (r : request) : Handler response :=
  match r with
  | GET_books author_id min_price max_price =>
      get_books author_id min_price max_price
  | GET_book book_id => get_book book_id
  | POST_books uuid4 utcnow get_json => create_book uuid4 utcnow get_json
  | PUT_book book_id utcnow get_json => update_book book_id utcnow get_json
  | PATCH_book book_id utcnow get_json =>
      partial_update_book book_id utcnow get_json
  | DELETE_book book_id => delete_book book_id
  | GET_authors => get_authors
  | GET_author author_id => get_author author_id
  | POST_authors uuid4 utcnow get_json => create_author uuid4 utcnow get_json
  | PUT_author author_id utcnow get_json =>
      update_author author_id utcnow get_json
  | DELETE_author author_id => delete_author author_id
  | GET_author_books author_id => get_author_books author_id
  end.

(** The tables after serving a sequence of requests, one at a time. *)
Definition serve (rs : list request) (s : store) : store :=
  fold_left (fun s r => fst (dispatch r s)) rs s.

(** The clock readings and generated identifiers of a request. *)
Definition clock_of (r : request) : option timestamp :=
  match r with
  | POST_books _ t _ | PUT_book _ t _ | PATCH_book _ t _
  | POST_authors _ t _ | PUT_author _ t _ => Some t
  | _ => None
  end.

Definition uuid_of (r : request) : option string :=
  match r with
  | POST_books u _ _ | POST_authors u _ _ => Some u
  | _ => None
  end.

(** *** The listing as the specification words it

    One conjunctive filter over the table in table order: equality on
    [author_id] when the parameter is provided, [price >= min_price] and
    [price <= max_price] when those are provided.  A comparison that
    raises does not count as satisfied. *)

Definition price_at_least (m : float) (b : book) : bool :=
  match ge_float (b_price b) m with
  | inr keep => keep
  | inl _ => false
  end.

Definition price_at_most (m : float) (b : book) : bool :=
  match le_float (b_price b) m with
  | inr keep => keep
  | inl _ => false
  end.

Definition matches (author_id : option string)
  (min_price max_price : option float) (b : book) : bool :=
  from_option (eq_str (b_author_id b)) true author_id
  && from_option (fun m => price_at_least m b) true min_price
  && from_option (fun m => price_at_most m b) true max_price.

Definition spec_list_books (author_id : option string)
  (min_price max_price : option float) (table : list (string * book))
  : response :=
  let result := filter (matches author_id min_price max_price)
                  (Dict.values table) in
  (BookList result (length result), 200).

(** A stored price is a number when Python can order it against a float:
    an [int], a [bool] or a [float]. *)
Definition numeric_prices (table : list (string * book)) : Prop :=
  Forall (fun b => is_Some (as_number (b_price b))) (Dict.values table).

(** *** Vocabulary of the properties *)

(** The keys [partial_update_book] looks for in its payload. *)
Definition patchable_fields : list string :=
  ["title"; "author_id"; "isbn"; "published_year"; "price"; "stock"].

(** [if key in data: book[key] = data[key]] on an object payload whose
    lookup of [key] gave [o]. *)
Definition assign_if_present (o : option json)
  (assign : json -> book -> book) (b : book) : book :=
  match o with
  | Some v => assign v b
  | None => b
  end.

(** What serving one request can do to the tables.  [now] and [uuid] are
    the clock reading and the generated identifier the request carries. *)
Inductive effect (now : option timestamp) (uuid : option string) (s : store)
  : store -> Prop :=
  | effect_none : effect now uuid s s
  | effect_book_created (k : string) (nb : book) (t : timestamp) :
      now = Some t -> uuid = Some k -> b_id nb = k ->
      b_created_at nb = t -> b_updated_at nb = t ->
      effect now uuid s (with_books (Dict.set k nb) s)
  | effect_book_changed (k : string) (old nb : book) (t : timestamp) :
      now = Some t -> Dict.get k (books s) = Some old ->
      b_id nb = k \/ b_id nb = b_id old ->
      b_created_at nb = b_created_at old -> b_updated_at nb = t ->
      effect now uuid s (with_books (Dict.set k nb) s)
  | effect_book_deleted (k : string) :
      effect now uuid s (with_books (Dict.del k) s)
  | effect_author_created (k : string) (na : author) (t : timestamp) :
      now = Some t -> uuid = Some k -> a_id na = k ->
      a_created_at na = t -> a_updated_at na = t ->
      effect now uuid s (with_authors (Dict.set k na) s)
  | effect_author_changed (k : string) (old na : author) (t : timestamp) :
      now = Some t -> Dict.get k (authors s) = Some old ->
      a_id na = k ->
      a_created_at na = a_created_at old -> a_updated_at na = t ->
      effect now uuid s (with_authors (Dict.set k na) s)
  | effect_author_deleted (k : string) :
      effect now uuid s (with_authors (Dict.del k) s).

(** Every record was created no later than it was last updated, and no
    stamp lies after the clock reading [t]. *)
Definition stamps_ordered_upto (t : timestamp) (s : store) : Prop :=
  Forall (fun b => b_created_at b <= b_updated_at b <= t)
    (Dict.values (books s))
  /\ Forall (fun a => a_created_at a <= a_updated_at a <= t)
       (Dict.values (authors s)).

(** The invariant of the data model: [created_at <= updated_at] for
    every record of both tables. *)
Definition stamps_ordered (s : store) : Prop :=
  Forall (fun b => b_created_at b <= b_updated_at b) (Dict.values (books s))
  /\ Forall (fun a => a_created_at a <= a_updated_at a)
       (Dict.values (authors s)).

(** A monotone clock: the readings taken while serving [rs], in order,
    never go back, starting from the reading [t]. *)
Fixpoint clock_monotone (t : timestamp) (rs : list request) : Prop :=
  match rs with
  | [] => True
  | r :: rs' =>
      match clock_of r with
      | Some t' => t <= t' /\ clock_monotone t' rs'
      | None => clock_monotone t rs'
      end
  end.

(** Every book is stored under its own id. *)
Definition ids_match (s : store) : Prop :=
  Forall (fun kv => b_id kv.2 = kv.1) (books s).

(** The identifiers [uuid.uuid4()] handed out while serving [rs]. *)
Definition generated (rs : list request) : list string := omap uuid_of rs.

(** [str(uuid.uuid4())] is the canonical 36-character rendering. *)
Definition canonical_uuid (u : string) : Prop := String.length u = 36%nat.

(** *** Sample request bodies *)

Definition dune : gmap string json :=
  <["title" := JStr "Dune"]> (<["author_id" := JStr "9"]>
  (<["isbn" := JStr "978-0-441-17271-9"]> (<["published_year" := JInt 1965]>
  (<["price" := JFloat 9.99]> ∅)))).

Definition dune_without_price : gmap string json := delete "price" dune.

Definition stock_5 : gmap string json := <["stock" := JInt 5]> ∅.

Definition eric_blair : gmap string json :=
  <["name" := JStr "Eric Blair"]> (<["birth_year" := JInt 1903]>
  (<["nationality" := JStr "British"]> ∅)).

(** A session touching every mutating route, the clock moving on. *)
Definition sample_session : list request :=
  [ POST_books "0b0e7d1c-5a3f-4c52-9d57-7c1f3a2b4e61" (seed_time + 10)
      (inr (JObj dune));
    PUT_book "1" (seed_time + 20) (inr (JObj dune));
    PATCH_book "2" (seed_time + 20) (inr (JObj stock_5));
    DELETE_book "3";
    POST_authors "6f9619ff-8b86-4d01-b42d-00cf4fc964ff" (seed_time + 30)
      (inr (JObj eric_blair));
    PUT_author "3" (seed_time + 40) (inr (JObj eric_blair));
    DELETE_author "2";
    GET_books None None None ].

(** *** Vocabulary of the further properties *)

(** Every author is stored under its own id. *)
Definition author_ids_match (s : store) : Prop :=
  Forall (fun kv => a_id kv.2 = kv.1) (authors s).

(** Both tables hold each key once and each record under its own id. *)
Definition well_keyed (s : store) : Prop :=
  NoDup (Dict.keys (books s)) /\ NoDup (Dict.keys (authors s))
  /\ ids_match s /\ author_ids_match s.

(** A handler succeeded when it answered with a 2xx status; an escaping
    exception and a 4xx answer are failures. *)
Definition succeeded (o : Exc response) : bool :=
  match o with
  | inr (_, status) => (200 <=? status) && (status <? 300)
  | inl _ => false
  end.

Definition is_get (r : request) : bool :=
  match r with
  | GET_books _ _ _ | GET_book _ | GET_authors | GET_author _
  | GET_author_books _ => true
  | _ => false
  end.

Definition book_route (r : request) : bool :=
  match r with
  | GET_books _ _ _ | GET_book _ | POST_books _ _ _ | PUT_book _ _ _
  | PATCH_book _ _ _ | DELETE_book _ => true
  | _ => false
  end.

Definition author_route (r : request) : bool :=
  match r with
  | GET_authors | GET_author _ | POST_authors _ _ _ | PUT_author _ _ _
  | DELETE_author _ => true
  | _ => false
  end.

(** The books that reach the price comparisons of [get_books]: those the
    [if author_id:] step lets through. *)
Definition passes_author (author_id : option string) (b : book) : bool :=
  if truthy author_id
  then eq_str (b_author_id b) (default "" author_id)
  else true.

(** A price Python cannot order against a float. *)
Definition dune_priced_in_words : gmap string json :=
  <["price" := JStr "cheap"]> dune.

Definition dune_retitled : gmap string json :=
  <["title" := JStr "Dune Messiah"]> ∅.

(** A handler refused a body: it stored nothing and either raised
    [TypeError] or answered 400 for a missing field. *)
Definition refused (s : store) (o : store * Exc response) : Prop :=
  o.1 = s
  /\ (o.2 = inl TypeError \/ exists field, o.2 = inr (missing_field field)).

(** A body that names every required Book field without being an
    object. *)
Definition field_names : json :=
  JArr [JStr "title"; JStr "author_id"; JStr "isbn"; JStr "published_year";
        JStr "price"].

End App.

(** * Properties *)

(** ** Facts about insertion-ordered dictionaries *)

Module DictFacts.

Section Facts.
Context {V : Type}.
Implicit Types (k : string) (v : V) (d : list (string * V)).

Lemma get_None_keys k d : Dict.get k d = None <-> k ∉ Dict.keys d.
Proof.
  induction d as [|[k' v'] d IH]; simpl.
  - split; [intros _; apply not_elem_of_nil | done].
  - rewrite not_elem_of_cons. destruct (decide (k = k')) as [->|Hne].
    + split; [done | intros [? _]; done].
    + rewrite IH. tauto.
Qed.

Lemma get_Some_values k v d : Dict.get k d = Some v -> v ∈ Dict.values d.
Proof.
  induction d as [|[k' v'] d IH]; simpl; [done|].
  destruct (decide (k = k')).
  - intros [= ->]. apply list_elem_of_here.
  - intros H. apply list_elem_of_further. auto.
Qed.

Lemma get_Some_keys k v d : Dict.get k d = Some v -> k ∈ Dict.keys d.
Proof.
  intros H. destruct (decide (k ∈ Dict.keys d)) as [|Hn]; [done|].
  apply get_None_keys in Hn. congruence.
Qed.

Lemma contains_true k d :
  Dict.contains k d = true <-> exists v, Dict.get k d = Some v.
Proof.
  unfold Dict.contains. destruct (Dict.get k d); split; eauto; try done.
  intros [? ?]; done.
Qed.

Lemma contains_false k d : Dict.contains k d = false <-> Dict.get k d = None.
Proof. unfold Dict.contains. destruct (Dict.get k d); split; done. Qed.

Lemma get_set_eq k v d : Dict.get k (Dict.set k v d) = Some v.
Proof.
  induction d as [|[k' v'] d IH]; simpl.
  - by rewrite decide_True.
  - destruct (decide (k = k')); simpl.
    + by rewrite decide_True.
    + by rewrite decide_False.
Qed.

Lemma get_set_ne k k' v d :
  k <> k' -> Dict.get k' (Dict.set k v d) = Dict.get k' d.
Proof.
  intros Hne. induction d as [|[k0 v0] d IH]; simpl.
  - by rewrite decide_False.
  - destruct (decide (k = k0)) as [->|]; simpl.
    + by rewrite !decide_False.
    + by rewrite IH.
Qed.

(** Assigning to a new key appends it at the end. *)
Lemma set_fresh k v d : Dict.get k d = None -> Dict.set k v d = d ++ [(k, v)].
Proof.
  induction d as [|[k' v'] d IH]; simpl; [done|].
  destruct (decide (k = k')); [done|]. intros H. by rewrite IH.
Qed.

(** Assigning to a present key keeps every key where it is. *)
Lemma keys_set_present k v d :
  Dict.contains k d = true -> Dict.keys (Dict.set k v d) = Dict.keys d.
Proof.
  unfold Dict.contains.
  induction d as [|[k' v'] d IH]; simpl; [done|].
  destruct (decide (k = k')) as [->|]; simpl; [done|].
  intros H. by rewrite IH.
Qed.

Lemma keys_set k k' v d :
  k' ∈ Dict.keys (Dict.set k v d) -> k' = k \/ k' ∈ Dict.keys d.
Proof.
  induction d as [|[k0 v0] d IH]; simpl.
  - rewrite list_elem_of_singleton. auto.
  - destruct (decide (k = k0)) as [->|]; simpl; rewrite !elem_of_cons.
    + tauto.
    + intros [?|?]; [tauto|]. destruct IH; auto.
Qed.

Lemma values_set (P : V -> Prop) k v d :
  P v -> Forall P (Dict.values d) -> Forall P (Dict.values (Dict.set k v d)).
Proof.
  intros Hv. induction d as [|[k' v'] d IH]; simpl.
  - by repeat constructor.
  - inversion 1; subst. destruct (decide (k = k')); simpl; constructor; auto.
Qed.

Lemma entries_set (P : string * V -> Prop) k v d :
  P (k, v) -> Forall P d -> Forall P (Dict.set k v d).
Proof.
  intros Hv. induction d as [|[k' v'] d IH]; simpl.
  - by repeat constructor.
  - inversion 1; subst. destruct (decide (k = k')); simpl; constructor; auto.
Qed.

Lemma get_del_eq k d : Dict.get k (Dict.del k d) = None.
Proof.
  induction d as [|[k' v'] d IH]; simpl; [done|].
  destruct (decide (k = k')); simpl; [done|]. by rewrite decide_False.
Qed.

Lemma get_del_ne k k' d :
  k <> k' -> Dict.get k' (Dict.del k d) = Dict.get k' d.
Proof.
  intros Hne. induction d as [|[k0 v0] d IH]; simpl; [done|].
  destruct (decide (k = k0)) as [->|]; simpl.
  - by rewrite decide_False.
  - by rewrite IH.
Qed.

Lemma del_absent k d : Dict.get k d = None -> Dict.del k d = d.
Proof.
  induction d as [|[k' v'] d IH]; simpl; [done|].
  destruct (decide (k = k')); [done|]. intros H. by rewrite IH.
Qed.

Lemma entries_del (P : string * V -> Prop) k d :
  Forall P d -> Forall P (Dict.del k d).
Proof.
  induction d as [|[k' v'] d IH]; simpl; [done|].
  inversion 1; subst. destruct (decide (k = k')); [|constructor]; auto.
Qed.

Lemma keys_del k k' d : k' ∈ Dict.keys (Dict.del k d) -> k' ∈ Dict.keys d.
Proof.
  induction d as [|[k0 v0] d IH]; simpl; [done|].
  destruct (decide (k = k0)); simpl; rewrite !elem_of_cons; intuition.
Qed.

Lemma values_entries (P : V -> Prop) d :
  Forall P (Dict.values d) <-> Forall (fun kv => P kv.2) d.
Proof. unfold Dict.values. by rewrite Forall_fmap. Qed.

(** Mutating the object stored under a present key is the same as
    assigning the mutated object to that key. *)
Lemma alter_set f k v d :
  Dict.get k d = Some v -> Dict.alter f k d = Dict.set k (f v) d.
Proof.
  induction d as [|[k' v'] d IH]; simpl; [done|].
  destruct (decide (k = k')) as [->|].
  - by intros [= ->].
  - intros H. by rewrite IH.
Qed.

Lemma alter_absent f k d : Dict.get k d = None -> Dict.alter f k d = d.
Proof.
  induction d as [|[k' v'] d IH]; simpl; [done|].
  destruct (decide (k = k')); [done|]. intros H. by rewrite IH.
Qed.

Lemma get_alter f k d : Dict.get k (Dict.alter f k d) = f <$> Dict.get k d.
Proof.
  induction d as [|[k' v'] d IH]; simpl; [done|].
  destruct (decide (k = k')) as [->|]; simpl.
  - by rewrite decide_True.
  - by rewrite decide_False.
Qed.

Lemma alter_alter f g k d :
  Dict.alter f k (Dict.alter g k d) = Dict.alter (fun v => f (g v)) k d.
Proof.
  induction d as [|[k' v'] d IH]; simpl; [done|].
  destruct (decide (k = k')) as [->|]; simpl.
  - by rewrite decide_True.
  - by rewrite decide_False, IH.
Qed.

Lemma alter_id k d : Dict.alter (fun v => v) k d = d.
Proof.
  induction d as [|[k' v'] d IH]; simpl; [done|].
  destruct (decide (k = k')); [done|]. by rewrite IH.
Qed.

End Facts.

End DictFacts.

Import Py App.

(** Unfolds one layer of the handler monad. *)
Ltac handler_unfold :=
  unfold mbind, handler_bind, bind, gets, eval, modify, ret,
    books_getitem, authors_getitem.

(** ** Python membership and the validation loop *)

Lemma eq_str_spec (v : json) (s : string) :
  eq_str v s = true <-> v = JStr s.
Proof.
  destruct v; simpl; try (split; [done | intros [=]]).
  rewrite bool_decide_eq_true. split; [by intros -> | by intros [= ->]].
Qed.

(** A payload on which one membership test answers is one on which all
    of them do. *)
Lemma contains_total (data : json) (key key' : string) (b : bool) :
  contains key data = inr b -> exists b', contains key' data = inr b'.
Proof. destruct data; simpl; intros [=]; eauto. Qed.

(** The loop stops at the first required field that is missing. *)
Lemma first_missing_some (fields : list string) (data : json) (field : string) :
  field ∈ fields ->
  contains field data = inr false ->
  exists missing,
    first_missing fields data = inr (Some missing)
    /\ missing ∈ fields /\ contains missing data = inr false.
Proof.
  intros Hin Hf. induction fields as [|f fields IH]; [by inversion Hin|].
  simpl. destruct (contains_total data field f false Hf) as [[] Hb];
    rewrite Hb.
  - apply elem_of_cons in Hin as [->|Hin]; [congruence|].
    destruct (IH Hin) as (m & ? & ? & ?). exists m.
    by rewrite elem_of_cons; auto.
  - exists f. rewrite elem_of_cons. auto.
Qed.

(** An object holding every required field passes the loop. *)
Lemma first_missing_none (fields : list string) (d : gmap string json) :
  (forall field, field ∈ fields -> is_Some (d !! field)) ->
  first_missing fields (JObj d) = inr None.
Proof.
  induction fields as [|f fields IH]; intros H; simpl; [done|].
  rewrite bool_decide_eq_true_2 by (apply H, list_elem_of_here).
  apply IH. intros ? ?. by apply H, list_elem_of_further.
Qed.

(** ** Replace: the not-found check comes first *)

(** C1. For every book id that is not a key of the Book table and
    every request body - decodable or not, with or without the required
    fields - [update_book] answers 404 with [{"error": "Book not found"}]
    (hence never 400) and leaves both tables as they were. *)
Theorem update_book_unknown_id_404 (book_id : string) (utcnow : timestamp)
    (get_json : Exc json) (s : store) :
  Dict.get book_id (books s) = None ->
  update_book book_id utcnow get_json s
  = (s, inr (Error "Book not found", 404)).
Proof.
  intros H. unfold update_book. handler_unfold.
  apply DictFacts.contains_false in H. by rewrite H.
Qed.

Lemma update_book_unknown_id_404_witness :
  Dict.get "missing-id" (books seed) = None
  /\ update_book "missing-id" 0 (inr (JObj dune_without_price)) seed
     = (seed, inr (Error "Book not found", 404)).
Proof.
  split; [reflexivity|].
  apply (update_book_unknown_id_404 "missing-id" 0
           (inr (JObj dune_without_price)) seed).
  reflexivity.
Defined.

(** The same invalid body against a present id is what yields 400. *)
Example update_book_known_id_invalid_body :
  update_book "1" 0 (inr (JObj dune_without_price)) seed
  = (seed, inr (Error "Missing required field: price", 400)).
Proof. vm_compute. reflexivity. Qed.

(** ** Create: validation failure *)

(** C3. For every payload from which at least one required Book field
    is missing, [create_book] answers 400 with
    [{"error": "Missing required field: <field>"}], where <field> is a
    required field missing from the payload (the first one in the order
    title, author_id, isbn, published_year, price), and both tables are
    left unchanged, so no record is inserted and the table size stays. *)
Theorem create_book_missing_field_400 (uuid4 : string) (utcnow : timestamp)
    (data : json) (s : store) (field : string) :
  field ∈ book_required_fields ->
  contains field data = inr false ->
  exists missing,
    missing ∈ book_required_fields
    /\ contains missing data = inr false
    /\ first_missing book_required_fields data = inr (Some missing)
    /\ create_book uuid4 utcnow (inr data) s
       = (s, inr (Error ("Missing required field: " +:+ missing), 400))
    /\ length (books (create_book uuid4 utcnow (inr data) s).1)
       = length (books s).
Proof.
  intros Hin Hf.
  destruct (first_missing_some _ _ _ Hin Hf) as (m & Hm & Hmin & Hmf).
  exists m. repeat split; try done.
  - unfold create_book. handler_unfold. by rewrite Hm.
  - unfold create_book. handler_unfold. by rewrite Hm.
Qed.

Lemma create_book_missing_field_400_witness :
  exists missing,
    missing ∈ book_required_fields
    /\ contains missing (JObj dune_without_price) = inr false
    /\ first_missing book_required_fields (JObj dune_without_price)
       = inr (Some missing)
    /\ create_book "u" 0 (inr (JObj dune_without_price)) seed
       = (seed, inr (Error ("Missing required field: " +:+ missing), 400))
    /\ length (books (create_book "u" 0 (inr (JObj dune_without_price)) seed).1)
       = length (books seed).
Proof.
  apply (create_book_missing_field_400 "u" 0 (JObj dune_without_price) seed
           "price").
  - unfold book_required_fields. set_solver.
  - vm_compute. reflexivity.
Defined.

(** The spec's test: omitting [price] names [price]. *)
Example create_book_without_price :
  create_book "u" 0 (inr (JObj dune_without_price)) seed
  = (seed, inr (Error "Missing required field: price", 400)).
Proof. vm_compute. reflexivity. Qed.

(** ** Listing books *)

(** A comprehension whose condition never raises is a filter. *)
Lemma comprehension_filter {A : Type} (p : A -> Exc bool) (q : A -> bool)
    (l : list A) :
  (forall x, x ∈ l -> p x = inr (q x)) ->
  comprehension p l = inr (filter q l).
Proof.
  induction l as [|x l IH]; intros H; simpl; [done|].
  rewrite (H x) by apply list_elem_of_here.
  rewrite IH by (intros; apply H; by apply list_elem_of_further).
  rewrite filter_cons. destruct (q x); by case_decide.
Qed.

Lemma filter_andb {A : Type} (p q : A -> bool) (l : list A) :
  filter q (filter p l) = filter (fun x => p x && q x) l.
Proof.
  induction l as [|x l IH]; [done|].
  rewrite !filter_cons. destruct (p x) eqn:Hp; simpl.
  - rewrite filter_cons, IH. destruct (q x); by repeat case_decide.
  - by repeat case_decide.
Qed.

Lemma filter_true {A : Type} (l : list A) : filter (fun _ => true) l = l.
Proof.
  induction l as [|x l IH]; [done|].
  rewrite filter_cons, IH. by case_decide.
Qed.

Lemma price_at_least_numeric (m : float) (b : book) :
  is_Some (as_number (b_price b)) ->
  ge_float (b_price b) m = inr (price_at_least m b).
Proof.
  unfold price_at_least, ge_float. intros [n Hn]. rewrite Hn.
  by destruct n.
Qed.

Lemma price_at_most_numeric (m : float) (b : book) :
  is_Some (as_number (b_price b)) ->
  le_float (b_price b) m = inr (price_at_most m b).
Proof.
  unfold price_at_most, le_float. intros [n Hn]. rewrite Hn.
  by destruct n.
Qed.

Lemma filter_ext_bool {A : Type} (p q : A -> bool) (l : list A) :
  (forall x, p x = q x) -> filter p l = filter q l.
Proof.
  intros H. induction l as [|x l IH]; [done|].
  by rewrite !filter_cons, IH, H.
Qed.

(** C2, as amended. For every Book table and every combination of the
    optional query parameters, [get_books] answers 200 with the books of
    the table, in table order, that pass one conjunctive filter -
    equality on [author_id] if that parameter is provided and non-empty,
    [price >= min_price] if provided, [price <= max_price] if provided,
    each absent parameter being a no-op - together with the length of that
    sequence; the tables are not changed.  When a price bound is given the
    stored prices must be numbers, since the handler compares them
    unchecked. *)
Theorem get_books_conjunctive_filter (author_id : option string)
    (min_price max_price : option float) (s : store) :
  (min_price = None /\ max_price = None) \/ numeric_prices (books s) ->
  let provided := if truthy author_id then author_id else None in
  let result :=
    filter (matches provided min_price max_price) (Dict.values (books s)) in
  get_books author_id min_price max_price s
  = (s, inr (BookList result (length result), 200)).
Proof.
  intros Hnum. cbv zeta.
  assert (Hp : forall b, b ∈ Dict.values (books s) ->
            (min_price = None /\ max_price = None)
            \/ is_Some (as_number (b_price b))).
  { intros b Hb. destruct Hnum as [?|Hall]; [by left | right].
    unfold numeric_prices in Hall. rewrite Forall_forall in Hall. auto. }
  unfold get_books, matches. handler_unfold.
  destruct (truthy author_id) eqn:Ht;
    [destruct author_id as [a|]; [|done] |];
    destruct min_price, max_price; cbn;
    repeat (erewrite comprehension_filter;
            [| intros b Hb;
               first [apply price_at_least_numeric
                     | apply price_at_most_numeric];
               repeat (apply list_elem_of_filter in Hb as [_ Hb]);
               destruct (Hp b Hb) as [[? ?]|?]; done ]);
    rewrite ?filter_andb;
    match goal with
    | |- (_, inr (BookList ?l1 _, _)) = (_, inr (BookList ?l2 _, _)) =>
        replace l2 with l1; [done|]
    end;
    first [ symmetry; apply filter_true
          | apply filter_ext_bool; intros b; cbn;
            by rewrite ?andb_true_r, ?andb_assoc ].
Qed.

Lemma seed_prices_numeric : numeric_prices (books seed).
Proof. repeat constructor; by eexists. Qed.

Lemma get_books_conjunctive_filter_witness :
  ((Some 13%float = None /\ Some 14%float = None)
   \/ numeric_prices (books seed))
  /\ get_books (Some "3") (Some 13%float) (Some 14%float) seed
     = (seed,
        inr (BookList
               (filter (matches (Some "3") (Some 13%float) (Some 14%float))
                  (Dict.values (books seed)))
               (length
                  (filter (matches (Some "3") (Some 13%float) (Some 14%float))
                     (Dict.values (books seed)))),
             200)).
Proof.
  split; [right; exact seed_prices_numeric|].
  apply (get_books_conjunctive_filter (Some "3") (Some 13%float)
           (Some 14%float) seed).
  right. exact seed_prices_numeric.
Defined.

(** The listing tests of the specification, on the seed data. *)
Example get_books_no_filter :
  get_books None None None seed
  = (seed, inr (BookList (Dict.values seed_books) 3, 200)).
Proof. vm_compute. reflexivity. Qed.

Example get_books_by_author_1 :
  exists gatsby,
    Dict.get "1" seed_books = Some gatsby
    /\ get_books (Some "1") None None seed
       = (seed, inr (BookList [gatsby] 1, 200)).
Proof. eexists. split; vm_compute; reflexivity. Qed.

Example get_books_between_13_and_14 :
  exists nineteen_eighty_four,
    Dict.get "3" seed_books = Some nineteen_eighty_four
    /\ get_books None (Some 13%float) (Some 14%float) seed
       = (seed, inr (BookList [nineteen_eighty_four] 1, 200)).
Proof. eexists. split; vm_compute; reflexivity. Qed.

(** The claim as worded applies the [author_id] equality whenever the
    parameter is provided.  With [?author_id=] (provided, empty) the
    handler answers with all three seed books, whereas no seed book has
    the empty string as its author. *)
Lemma get_books_empty_author_id_counterexample :
  spec_list_books (Some "") None None (books seed) = (BookList [] 0, 200)
  /\ get_books (Some "") None None seed
     = (seed, inr (BookList (Dict.values seed_books) 3, 200))
  /\ get_books (Some "") None None seed
     <> (seed, inr (spec_list_books (Some "") None None (books seed))).
Proof.
  split; [vm_compute; reflexivity|].
  split; [vm_compute; reflexivity|].
  vm_compute. intros [=].
Qed.

(** A non-numeric price is stored as it comes and makes a later price
    comparison raise. *)
Example get_books_non_numeric_price :
  let s := (create_book "u" 0 (inr (JObj (<["price" := JStr "cheap"]> dune)))
              seed).1 in
  get_books None (Some 1%float) None s = (s, inl TypeError).
Proof. vm_compute. reflexivity. Qed.

(** C10. With the [author_id] query parameter provided but empty,
    [get_books] behaves exactly as with the parameter absent: the
    condition [if author_id:] tests truthiness, so the filter is skipped
    and, without price bounds, every book of the table is returned rather
    than only those whose [author_id] is the empty string. *)
Theorem get_books_empty_author_id_is_absent
    (min_price max_price : option float) (s : store) :
  get_books (Some "") min_price max_price s
  = get_books None min_price max_price s
  /\ get_books (Some "") None None s
     = (s, inr (BookList (Dict.values (books s))
                  (length (Dict.values (books s))), 200)).
Proof. split; reflexivity. Qed.

(** A book whose author is the empty string does not single itself out. *)
Example get_books_empty_author_id_returns_all :
  let s := (create_book "u" 0 (inr (JObj (<["author_id" := JStr ""]> dune)))
              seed).1 in
  exists bs, get_books (Some "") None None s = (s, inr (BookList bs 4, 200)).
Proof. eexists. vm_compute. reflexivity. Qed.

(** ** Authors and their books *)

(** C7. [delete_author] touches the Author table only: the Book table
    is exactly what it was, books referencing the deleted author
    included; in the Author table the entry under the given id is gone
    and every other entry is as before. *)
Theorem delete_author_keeps_books (author_id : string) (s : store) :
  books (delete_author author_id s).1 = books s
  /\ authors (delete_author author_id s).1 = Dict.del author_id (authors s)
  /\ Dict.get author_id (authors (delete_author author_id s).1) = None
  /\ (forall k, k <> author_id ->
        Dict.get k (authors (delete_author author_id s).1)
        = Dict.get k (authors s))
  /\ (delete_author author_id s).2
     = inr (if Dict.contains author_id (authors s)
            then (Empty, 204) else (Error "Author not found", 404)).
Proof.
  unfold delete_author. handler_unfold.
  destruct (Dict.contains author_id (authors s)) eqn:Hc; simpl.
  - repeat split; auto using DictFacts.get_del_eq.
    intros k Hk. by apply DictFacts.get_del_ne.
  - apply DictFacts.contains_false in Hc.
    rewrite DictFacts.del_absent by done. repeat split; auto.
Qed.

Example delete_author_of_gatsby :
  let s := (delete_author "1" seed).1 in
  Dict.get "1" (authors s) = None
  /\ books s = seed_books
  /\ (get_book "1" s).2 = (get_book "1" seed).2.
Proof. vm_compute. auto. Qed.

(** C8. [get_author_books] answers 404 with
    [{"error": "Author not found"}] when the id is not a key of the
    Author table.  Otherwise it answers 200 with the author record, the
    books of the table whose [author_id] equals the id, in table order,
    and the length of that sequence; if no book references the author
    the list is empty and the count 0, while [get_author] still answers
    200 with the author.  The tables are not changed. *)
Theorem get_author_books_lists_references (author_id : string) (s : store) :
  (Dict.get author_id (authors s) = None ->
   get_author_books author_id s = (s, inr (Error "Author not found", 404)))
  /\ (forall a, Dict.get author_id (authors s) = Some a ->
      let author_books :=
        filter (fun b => eq_str (b_author_id b) author_id)
          (Dict.values (books s)) in
      get_author_books author_id s
      = (s, inr (AuthorBooks a author_books (length author_books), 200))
      /\ (forall b, b ∈ author_books <->
                    b_author_id b = JStr author_id /\ b ∈ Dict.values (books s))
      /\ author_books `sublist_of` Dict.values (books s)
      /\ ((forall b, b ∈ Dict.values (books s) ->
                     b_author_id b <> JStr author_id) ->
          get_author_books author_id s = (s, inr (AuthorBooks a [] 0, 200))
          /\ get_author author_id s = (s, inr (AuthorBody a, 200)))).
Proof.
  unfold get_author_books, get_author. handler_unfold. split.
  - by intros ->.
  - intros a ->. cbn. split; [done|]. split.
    { intros b. by rewrite list_elem_of_filter, Is_true_true, eq_str_spec. }
    split; [apply sublist_filter|].
    intros Hnone. split; [|done].
    replace (filter _ _) with (@nil book); [done|].
    symmetry. apply elem_of_nil_inv. intros b Hb.
    apply list_elem_of_filter in Hb as [Hauthor Hb].
    apply (Hnone b Hb). by apply eq_str_spec, Is_true_true.
Qed.

Example get_author_books_after_deleting_the_books :
  let s := (delete_book "1" seed).1 in
  exists fitzgerald,
    get_author_books "1" s = (s, inr (AuthorBooks fitzgerald [] 0, 200))
    /\ get_author "1" s = (s, inr (AuthorBody fitzgerald, 200)).
Proof. eexists. split; vm_compute; reflexivity. Qed.

(** ** Partial update *)

(** On an object payload, one [if key in data] step assigns the
    payload's value when there is one and does nothing otherwise. *)
Lemma patch_key_object (book_id : string) (d : gmap string json)
    (key : string) (assign : json -> book -> book) (s : store) :
  patch_key book_id (JObj d) key assign s
  = (with_books (Dict.alter (assign_if_present (d !! key) assign) book_id) s,
     inr tt).
Proof.
  unfold patch_key, contains, getitem. handler_unfold.
  case_bool_decide as Hk.
  - destruct Hk as [v Hv]. by rewrite Hv.
  - apply eq_None_not_Some in Hk. rewrite Hk. simpl.
    unfold with_books. rewrite DictFacts.alter_id. by destruct s.
Qed.

(** On any other payload the step leaves the tables alone: a key found
    in a list or a string cannot be read back with [data[key]]. *)
Lemma patch_key_not_object (book_id : string) (data : json)
    (key : string) (assign : json -> book -> book) (s : store) :
  (forall d, data <> JObj d) ->
  exists r, patch_key book_id data key assign s = (s, r).
Proof.
  intros Hd. unfold patch_key, contains, getitem. handler_unfold.
  destruct data as [| | | | |l|d]; simpl; eauto;
    try (by destruct (Hd d)); by case_match; eauto.
Qed.

Lemma partial_update_book_object (book_id : string) (utcnow : timestamp)
    (d : gmap string json) (s : store) (old : book) :
  Dict.get book_id (books s) = Some old ->
  partial_update_book book_id utcnow (inr (JObj d)) s
  = let merged :=
      {| b_id := b_id old;
         b_title := default (b_title old) (d !! "title");
         b_author_id := default (b_author_id old) (d !! "author_id");
         b_isbn := default (b_isbn old) (d !! "isbn");
         b_published_year :=
           default (b_published_year old) (d !! "published_year");
         b_price := default (b_price old) (d !! "price");
         b_stock := default (b_stock old) (d !! "stock");
         b_created_at := b_created_at old;
         b_updated_at := utcnow |} in
    (with_books (Dict.set book_id merged) s, inr (BookBody merged, 200)).
Proof.
  intros Hold. cbv zeta. unfold partial_update_book. handler_unfold.
  rewrite (proj2 (DictFacts.contains_true _ _)) by eauto. simpl.
  rewrite !patch_key_object. unfold with_books; simpl.
  rewrite !DictFacts.alter_alter, DictFacts.get_alter, Hold. simpl.
  rewrite (DictFacts.alter_set _ _ _ _ Hold).
  match goal with
  | |- (_, inr (BookBody ?b, _)) = (_, inr (BookBody ?m, _)) =>
      replace b with m; [done|]
  end.
  unfold assign_if_present.
  destruct (d !! "title"), (d !! "author_id"), (d !! "isbn"),
    (d !! "published_year"), (d !! "price"), (d !! "stock"); reflexivity.
Qed.

(** C5. For every book id present in the table and every object
    payload, [partial_update_book] answers 200 with the merged record:
    each of title, author_id, isbn, published_year, price, stock is the
    payload's value when the payload has that key and the stored value
    otherwise; [id] and [created_at] are the stored ones; [updated_at] is
    the clock reading, whatever the payload holds (the empty payload
    included).  The merged record takes the place of the old one in the
    table, every other book and every author stays as it was, and a
    payload key outside the six makes no difference. *)
Theorem partial_update_book_merges (book_id : string) (utcnow : timestamp)
    (d : gmap string json) (s : store) (old : book) :
  Dict.get book_id (books s) = Some old ->
  let merged :=
    {| b_id := b_id old;
       b_title := default (b_title old) (d !! "title");
       b_author_id := default (b_author_id old) (d !! "author_id");
       b_isbn := default (b_isbn old) (d !! "isbn");
       b_published_year :=
         default (b_published_year old) (d !! "published_year");
       b_price := default (b_price old) (d !! "price");
       b_stock := default (b_stock old) (d !! "stock");
       b_created_at := b_created_at old;
       b_updated_at := utcnow |} in
  let s' := (partial_update_book book_id utcnow (inr (JObj d)) s).1 in
  partial_update_book book_id utcnow (inr (JObj d)) s
  = (with_books (Dict.set book_id merged) s, inr (BookBody merged, 200))
  /\ Dict.get book_id (books s') = Some merged
  /\ (forall k, k <> book_id -> Dict.get k (books s') = Dict.get k (books s))
  /\ Dict.keys (books s') = Dict.keys (books s)
  /\ authors s' = authors s
  /\ (forall key v, key ∉ patchable_fields ->
        partial_update_book book_id utcnow (inr (JObj (<[key := v]> d))) s
        = partial_update_book book_id utcnow (inr (JObj d)) s).
Proof.
  intros Hold merged s'.
  pose proof (partial_update_book_object book_id utcnow d s old Hold) as E.
  cbv zeta in E. fold merged in E. subst s'. rewrite E. simpl.
  split; [done|]. split; [apply DictFacts.get_set_eq|].
  split; [intros k Hk; by apply DictFacts.get_set_ne|].
  split; [apply DictFacts.keys_set_present, DictFacts.contains_true; eauto|].
  split; [done|].
  intros key v Hkey.
  rewrite (partial_update_book_object book_id utcnow _ s old Hold).
  cbv zeta. unfold patchable_fields in Hkey.
  rewrite !not_elem_of_cons in Hkey.
  destruct Hkey as (? & ? & ? & ? & ? & ? & _).
  by rewrite !lookup_insert_ne.
Qed.

(** The spec's test: a payload holding only [stock] changes [stock] and
    [updated_at] and nothing else. *)
Lemma partial_update_book_merges_witness :
  exists old,
    Dict.get "2" (books seed) = Some old
    /\ (partial_update_book "2" (seed_time + 5)
          (inr (JObj (<["stock" := JInt 5]> ∅))) seed).2
       = inr (BookBody
                {| b_id := b_id old; b_title := b_title old;
                   b_author_id := b_author_id old; b_isbn := b_isbn old;
                   b_published_year := b_published_year old;
                   b_price := b_price old; b_stock := JInt 5;
                   b_created_at := b_created_at old;
                   b_updated_at := seed_time + 5 |}, 200).
Proof.
  eexists. split; [reflexivity|].
  destruct (partial_update_book_merges "2" (seed_time + 5)
              (<["stock" := JInt 5]> ∅) seed _ eq_refl) as [E _].
  rewrite E. vm_compute. reflexivity.
Defined.

(** ** Create and replace on a valid payload *)

(** Every field of a literal list of required fields is in the payload. *)
Ltac required_present :=
  let f := fresh "field" in
  let Hf := fresh "Hfield" in
  intros f Hf;
  unfold book_required_fields, author_required_fields in Hf;
  repeat (apply elem_of_cons in Hf as [->|Hf]; [by eauto|]);
  by apply elem_of_nil in Hf.

Lemma create_book_object (uuid4 : string) (utcnow : timestamp)
    (d : gmap string json) (s : store)
    (title author_id isbn published_year price : json) :
  d !! "title" = Some title -> d !! "author_id" = Some author_id ->
  d !! "isbn" = Some isbn -> d !! "published_year" = Some published_year ->
  d !! "price" = Some price ->
  create_book uuid4 utcnow (inr (JObj d)) s
  = let new_book :=
      {| b_id := uuid4; b_title := title; b_author_id := author_id;
         b_isbn := isbn; b_published_year := published_year;
         b_price := price; b_stock := default (JInt 0) (d !! "stock");
         b_created_at := utcnow; b_updated_at := utcnow |} in
    (with_books (Dict.set uuid4 new_book) s, inr (BookBody new_book, 201)).
Proof.
  intros H1 H2 H3 H4 H5. unfold create_book. handler_unfold.
  cbv beta iota. rewrite first_missing_none by (by required_present).
  unfold getitem, get. by rewrite H1, H2, H3, H4, H5.
Qed.

Lemma update_book_object (book_id : string) (utcnow : timestamp)
    (d : gmap string json) (s : store) (old : book)
    (title author_id isbn published_year price : json) :
  Dict.get book_id (books s) = Some old ->
  d !! "title" = Some title -> d !! "author_id" = Some author_id ->
  d !! "isbn" = Some isbn -> d !! "published_year" = Some published_year ->
  d !! "price" = Some price ->
  update_book book_id utcnow (inr (JObj d)) s
  = let updated_book :=
      {| b_id := book_id; b_title := title; b_author_id := author_id;
         b_isbn := isbn; b_published_year := published_year;
         b_price := price; b_stock := default (JInt 0) (d !! "stock");
         b_created_at := b_created_at old; b_updated_at := utcnow |} in
    (with_books (Dict.set book_id updated_book) s,
     inr (BookBody updated_book, 200)).
Proof.
  intros Hold H1 H2 H3 H4 H5. unfold update_book. handler_unfold.
  rewrite (proj2 (DictFacts.contains_true _ _)) by eauto.
  cbv beta iota delta [negb]. rewrite first_missing_none by (by required_present).
  unfold getitem, get. by rewrite Hold, H1, H2, H3, H4, H5.
Qed.

Lemma required_fields_present (d : gmap string json) :
  (forall field, field ∈ book_required_fields -> is_Some (d !! field)) ->
  exists title author_id isbn published_year price,
    d !! "title" = Some title /\ d !! "author_id" = Some author_id
    /\ d !! "isbn" = Some isbn /\ d !! "published_year" = Some published_year
    /\ d !! "price" = Some price.
Proof.
  intros H.
  destruct (H "title") as [v1 ?]; [set_solver|].
  destruct (H "author_id") as [v2 ?]; [set_solver|].
  destruct (H "isbn") as [v3 ?]; [set_solver|].
  destruct (H "published_year") as [v4 ?]; [set_solver|].
  destruct (H "price") as [v5 ?]; [set_solver|].
  by exists v1, v2, v3, v4, v5.
Qed.

(** C6. For every book id present in the table and every object
    payload holding all required fields, two [update_book] calls in a row
    with that payload both answer 200, and the two records agree in
    every field except [updated_at]: [id] is the given id and
    [created_at] the original one both times, while [updated_at] is the
    clock reading of the respective call, so it advances as the clock
    does. *)
Theorem update_book_twice (book_id : string) (t1 t2 : timestamp)
    (d : gmap string json) (s : store) (old : book) :
  Dict.get book_id (books s) = Some old ->
  (forall field, field ∈ book_required_fields -> is_Some (d !! field)) ->
  exists r1 r2 s1 s2,
    update_book book_id t1 (inr (JObj d)) s = (s1, inr (BookBody r1, 200))
    /\ update_book book_id t2 (inr (JObj d)) s1 = (s2, inr (BookBody r2, 200))
    /\ Dict.get book_id (books s1) = Some r1
    /\ Dict.get book_id (books s2) = Some r2
    /\ b_id r1 = book_id /\ b_id r2 = book_id
    /\ b_title r2 = b_title r1 /\ b_author_id r2 = b_author_id r1
    /\ b_isbn r2 = b_isbn r1 /\ b_published_year r2 = b_published_year r1
    /\ b_price r2 = b_price r1 /\ b_stock r2 = b_stock r1
    /\ b_created_at r1 = b_created_at old
    /\ b_created_at r2 = b_created_at old
    /\ b_updated_at r1 = t1 /\ b_updated_at r2 = t2
    /\ (t1 <= t2 -> b_updated_at r1 <= b_updated_at r2).
Proof.
  intros Hold Hreq.
  destruct (required_fields_present d Hreq)
    as (v1 & v2 & v3 & v4 & v5 & H1 & H2 & H3 & H4 & H5).
  pose proof (update_book_object book_id t1 d s old _ _ _ _ _
                Hold H1 H2 H3 H4 H5) as E1.
  cbv zeta in E1.
  set (r1 := {| b_id := book_id; b_updated_at := t1 |}) in E1.
  set (s1 := with_books (Dict.set book_id r1) s) in E1.
  assert (Hr1 : Dict.get book_id (books s1) = Some r1)
    by apply DictFacts.get_set_eq.
  pose proof (update_book_object book_id t2 d s1 r1 _ _ _ _ _
                Hr1 H1 H2 H3 H4 H5) as E2.
  cbv zeta in E2.
  set (r2 := {| b_id := book_id; b_updated_at := t2 |}) in E2.
  exists r1, r2, s1, (with_books (Dict.set book_id r2) s1).
  repeat split; try done. apply DictFacts.get_set_eq.
Qed.

Lemma update_book_twice_witness :
  exists r1 r2 s1 s2,
    update_book "1" (seed_time + 1) (inr (JObj dune)) seed
    = (s1, inr (BookBody r1, 200))
    /\ update_book "1" (seed_time + 2) (inr (JObj dune)) s1
       = (s2, inr (BookBody r2, 200))
    /\ b_created_at r1 = seed_time /\ b_created_at r2 = seed_time
    /\ b_updated_at r1 = seed_time + 1 /\ b_updated_at r2 = seed_time + 2.
Proof.
  destruct (update_book_twice "1" (seed_time + 1) (seed_time + 2) dune seed
              _ eq_refl)
    as (r1 & r2 & s1 & s2 & E1 & E2 & _ & _ & _ & _ & _ & _ & _ & _ & _ & _
        & C1 & C2 & U1 & U2 & _).
  { by required_present. }
  exists r1, r2, s1, s2.
  split; [exact E1|]. split; [exact E2|]. split; [exact C1|].
  split; [exact C2|]. split; [exact U1 | exact U2].
Defined.

(** ** What a request can do to the tables *)

Lemma with_books_alter (f : book -> book) (k : string) (old : book)
    (s : store) :
  Dict.get k (books s) = Some old ->
  with_books (Dict.alter f k) s = with_books (Dict.set k (f old)) s.
Proof. intros H. unfold with_books. by rewrite (DictFacts.alter_set f k old). Qed.

Lemma partial_update_book_effect (book_id : string) (utcnow : timestamp)
    (get_json : Exc json) (s : store) :
  effect (Some utcnow) None s
    (partial_update_book book_id utcnow get_json s).1.
Proof.
  destruct (Dict.get book_id (books s)) as [old|] eqn:Hold.
  - destruct get_json as [e|data].
    { unfold partial_update_book. handler_unfold.
      rewrite (proj2 (DictFacts.contains_true _ _)) by eauto.
      apply effect_none. }
    assert (Hcase : (exists d, data = JObj d) \/ forall d, data <> JObj d)
      by (destruct data; eauto; right; intros ? [=]).
    destruct Hcase as [[d ->]|Hd].
    + rewrite (partial_update_book_object _ _ _ _ _ Hold). cbv zeta.
      by eapply effect_book_changed; eauto.
    + unfold partial_update_book. handler_unfold.
      rewrite (proj2 (DictFacts.contains_true _ _)) by eauto.
      cbv beta iota delta [negb].
      repeat
        match goal with
        | |- context [patch_key book_id data ?k ?f s] =>
            let r := fresh "r" in
            let Hr := fresh "Hr" in
            destruct (patch_key_not_object book_id data k f s Hd) as [r Hr];
            rewrite Hr; destruct r as [?|[]]; [apply effect_none|];
            cbv beta iota
        end.
      rewrite (with_books_alter _ _ _ _ Hold).
      unfold with_books at 1. simpl. rewrite DictFacts.get_set_eq. simpl.
      by eapply effect_book_changed; eauto.
  - unfold partial_update_book. handler_unfold.
    rewrite (proj2 (DictFacts.contains_false _ _)) by done.
    apply effect_none.
Qed.

(** Runs a handler symbolically, splitting on every outcome. *)
Ltac run_handler :=
  handler_unfold; repeat (simpl; case_match; simplify_eq); simpl.

Lemma dispatch_effect (r : request) (s : store) :
  effect (clock_of r) (uuid_of r) s (dispatch r s).1.
Proof.
  destruct r; simpl.
  - unfold get_books. run_handler; apply effect_none.
  - unfold get_book. run_handler; apply effect_none.
  - unfold create_book. run_handler; try apply effect_none.
    all: by eapply effect_book_created.
  - unfold update_book. run_handler; try apply effect_none.
    all: eapply effect_book_changed; eauto.
  - apply partial_update_book_effect.
  - unfold delete_book. run_handler;
      first [apply effect_none | apply effect_book_deleted].
  - unfold get_authors. run_handler; apply effect_none.
  - unfold get_author. run_handler; apply effect_none.
  - unfold create_author. run_handler; try apply effect_none.
    all: by eapply effect_author_created.
  - unfold update_author. run_handler; try apply effect_none.
    all: eapply effect_author_changed; eauto.
  - unfold delete_author. run_handler;
      first [apply effect_none | apply effect_author_deleted].
  - unfold get_author_books. run_handler; apply effect_none.
Qed.

Lemma serve_cons (r : request) (rs : list request) (s : store) :
  serve (r :: rs) s = serve rs (dispatch r s).1.
Proof. reflexivity. Qed.

(** ** Timestamps: [created_at <= updated_at] *)

Lemma stamps_ordered_upto_mono (t t' : timestamp) (s : store) :
  t <= t' -> stamps_ordered_upto t s -> stamps_ordered_upto t' s.
Proof.
  intros Hle [Hb Ha].
  split; eapply Forall_impl; eauto; simpl; intros; lia.
Qed.

Lemma stamps_ordered_upto_ordered (t : timestamp) (s : store) :
  stamps_ordered_upto t s -> stamps_ordered s.
Proof.
  intros [Hb Ha].
  split; eapply Forall_impl; eauto; simpl; intros; lia.
Qed.

Lemma values_del_Forall {V : Type} (P : V -> Prop) (k : string)
    (d : list (string * V)) :
  Forall P (Dict.values d) -> Forall P (Dict.values (Dict.del k d)).
Proof.
  rewrite !DictFacts.values_entries. apply DictFacts.entries_del.
Qed.

(** One request served at clock reading [t'] keeps every stamp ordered
    and no later than [t']. *)
Lemma effect_stamps (now : option timestamp) (uuid : option string)
    (s s' : store) (t t' : timestamp) :
  effect now uuid s s' ->
  stamps_ordered_upto t s ->
  t <= t' ->
  (forall x, now = Some x -> x = t') ->
  stamps_ordered_upto t' s'.
Proof.
  intros Heff Hs Hle Hnow.
  apply (stamps_ordered_upto_mono t t') in Hs; [|done].
  destruct Hs as [Hb Ha].
  destruct Heff as [ | k nb x Hx _ _ Hc Hu | k old nb x Hx Hold _ Hc Hu | k
                   | k na x Hx _ _ Hc Hu | k old na x Hx Hold _ Hc Hu | k ];
    try (apply Hnow in Hx; subst x); split; simpl; try done.
  - apply DictFacts.values_set; [lia | done].
  - apply DictFacts.values_set; [|done].
    apply DictFacts.get_Some_values in Hold.
    rewrite Forall_forall in Hb. specialize (Hb _ Hold). lia.
  - by apply values_del_Forall.
  - apply DictFacts.values_set; [lia | done].
  - apply DictFacts.values_set; [|done].
    apply DictFacts.get_Some_values in Hold.
    rewrite Forall_forall in Ha. specialize (Ha _ Hold). lia.
  - by apply values_del_Forall.
Qed.

Lemma serve_stamps (rs : list request) :
  forall (t : timestamp) (s : store),
    clock_monotone t rs ->
    stamps_ordered_upto t s ->
    exists t', stamps_ordered_upto t' (serve rs s).
Proof.
  induction rs as [|r rs IH]; intros t s Hclock Hs; [by exists t|].
  rewrite serve_cons. simpl in Hclock.
  pose proof (dispatch_effect r s) as Heff.
  destruct (clock_of r) as [t'|] eqn:Hr.
  - destruct Hclock as [Hle Hclock]. apply (IH t'); [done|].
    eapply effect_stamps; eauto. by intros x [= ->].
  - apply (IH t); [done|].
    eapply effect_stamps; eauto; [lia | by intros x [=]].
Qed.

Lemma seed_stamps : stamps_ordered_upto seed_time seed.
Proof. split; repeat constructor; simpl; lia. Qed.

(** C9. Starting from the seed tables and serving any sequence of
    requests under a monotone clock - the readings never go back, the
    first being no earlier than the stamp of the seed records - every
    book and every author has [created_at <= updated_at]. *)
Theorem created_at_le_updated_at (rs : list request) :
  clock_monotone seed_time rs ->
  stamps_ordered (serve rs seed).
Proof.
  intros Hclock.
  destruct (serve_stamps rs seed_time seed Hclock seed_stamps) as [t Ht].
  by apply stamps_ordered_upto_ordered in Ht.
Qed.

Lemma created_at_le_updated_at_witness :
  clock_monotone seed_time sample_session
  /\ stamps_ordered (serve sample_session seed).
Proof.
  split; [cbn; lia|].
  apply (created_at_le_updated_at sample_session). cbn. lia.
Defined.

(** ** Generated identifiers *)

Lemma get_Some_entry {V : Type} (k : string) (v : V) (d : list (string * V)) :
  Dict.get k d = Some v -> (k, v) ∈ d.
Proof.
  induction d as [|[k' v'] d IH]; simpl; [done|].
  destruct (decide (k = k')) as [->|].
  - intros [= ->]. apply list_elem_of_here.
  - intros H. apply list_elem_of_further. auto.
Qed.

(** A request adds at most one key to the Book table: the identifier
    generated for it. *)
Lemma effect_book_keys (now : option timestamp) (uuid : option string)
    (s s' : store) (k : string) :
  effect now uuid s s' ->
  k ∈ Dict.keys (books s') ->
  k ∈ Dict.keys (books s) \/ uuid = Some k.
Proof.
  intros Heff Hk.
  destruct Heff as [ | k0 nb x _ Hu _ _ _ | k0 old nb x _ Hold _ _ _ | k0
                   | k0 na x _ _ _ _ _ | k0 old na x _ _ _ _ _ | k0 ];
    simpl in Hk; auto.
  - apply DictFacts.keys_set in Hk as [->|?]; auto.
  - apply DictFacts.keys_set in Hk as [->|?]; auto.
    left. by eapply DictFacts.get_Some_keys.
  - left. by eapply DictFacts.keys_del.
Qed.

Lemma effect_ids_match (now : option timestamp) (uuid : option string)
    (s s' : store) :
  effect now uuid s s' -> ids_match s -> ids_match s'.
Proof.
  unfold ids_match. intros Heff Hs.
  destruct Heff as [ | k0 nb x _ _ Hid _ _ | k0 old nb x _ Hold Hid _ _ | k0
                   | k0 na x _ _ _ _ _ | k0 old na x _ _ _ _ _ | k0 ];
    simpl; auto.
  - by apply DictFacts.entries_set.
  - apply DictFacts.entries_set; [|done]. simpl.
    destruct Hid as [?|Hid]; [done|]. rewrite Hid.
    apply get_Some_entry in Hold. rewrite Forall_forall in Hs.
    apply (Hs _ Hold).
  - by apply DictFacts.entries_del.
Qed.

Lemma serve_book_keys (rs : list request) :
  forall (s : store) (k : string),
    k ∈ Dict.keys (books (serve rs s)) ->
    k ∈ Dict.keys (books s) \/ k ∈ generated rs.
Proof.
  unfold generated.
  induction rs as [|r rs IH]; intros s k Hk; [by left|].
  rewrite serve_cons in Hk. apply IH in Hk as [Hk|Hk].
  - apply (effect_book_keys _ _ _ _ _ (dispatch_effect r s)) in Hk
      as [?|Hu]; [by left | right].
    simpl. rewrite Hu. apply list_elem_of_here.
  - right. simpl. destruct (uuid_of r); [by apply list_elem_of_further|done].
Qed.

Lemma serve_ids_match (rs : list request) :
  forall s : store, ids_match s -> ids_match (serve rs s).
Proof.
  induction rs as [|r rs IH]; intros s Hs; [done|].
  rewrite serve_cons. apply IH.
  by eapply effect_ids_match; [apply dispatch_effect|].
Qed.

Lemma seed_ids_match : ids_match seed.
Proof. by repeat constructor. Qed.

Lemma canonical_uuid_not_seed (u : string) :
  canonical_uuid u -> u ∉ Dict.keys seed_books.
Proof.
  unfold canonical_uuid. intros Hu Hin. simpl in Hin.
  repeat (apply elem_of_cons in Hin as [->|Hin]; [by simpl in Hu|]).
  by apply elem_of_nil in Hin.
Qed.

(** C4. In every state reached from the seed tables, for every object
    payload holding all required Book fields, [create_book] answers 201
    with a new record built from the payload: its [id] is the generated
    identifier, [created_at] and [updated_at] are both the clock reading,
    [stock] is the payload's or 0 when absent.  The record is appended to
    the table under its id, the rest of the tables being untouched.  The
    identifier is distinct from every key and every record id already in
    the table, given what the generator promises: a canonical UUID that
    it has not handed out before. *)
Theorem create_book_adds_new_record (history : list request)
    (uuid4 : string) (utcnow : timestamp) (d : gmap string json) :
  canonical_uuid uuid4 ->
  uuid4 ∉ generated history ->
  (forall field, field ∈ book_required_fields -> is_Some (d !! field)) ->
  let s := serve history seed in
  exists new_book,
    create_book uuid4 utcnow (inr (JObj d)) s
    = (with_books (Dict.set uuid4 new_book) s, inr (BookBody new_book, 201))
    /\ b_id new_book = uuid4
    /\ (forall k b, Dict.get k (books s) = Some b ->
                    k <> b_id new_book /\ b_id b <> b_id new_book)
    /\ b_created_at new_book = utcnow
    /\ b_updated_at new_book = b_created_at new_book
    /\ b_stock new_book = default (JInt 0) (d !! "stock")
    /\ d !! "title" = Some (b_title new_book)
    /\ d !! "author_id" = Some (b_author_id new_book)
    /\ d !! "isbn" = Some (b_isbn new_book)
    /\ d !! "published_year" = Some (b_published_year new_book)
    /\ d !! "price" = Some (b_price new_book)
    /\ Dict.set uuid4 new_book (books s) = books s ++ [(uuid4, new_book)]
    /\ Dict.get uuid4 (Dict.set uuid4 new_book (books s)) = Some new_book.
Proof.
  intros Hcanon Hfresh Hreq s.
  destruct (required_fields_present d Hreq)
    as (v1 & v2 & v3 & v4 & v5 & H1 & H2 & H3 & H4 & H5).
  rewrite (create_book_object uuid4 utcnow d s _ _ _ _ _ H1 H2 H3 H4 H5).
  cbv zeta. eexists. split; [reflexivity|]. simpl.
  assert (Hnew : uuid4 ∉ Dict.keys (books s)).
  { intros Hin. apply serve_book_keys in Hin as [Hin|Hin]; [|done].
    by apply (canonical_uuid_not_seed uuid4). }
  split; [done|]. split.
  { intros k b Hkb.
    assert (b_id b = k) as Hid.
    { pose proof (serve_ids_match history seed seed_ids_match) as Hm.
      unfold ids_match in Hm. rewrite Forall_forall in Hm.
      apply (Hm _ (get_Some_entry _ _ _ Hkb)). }
    apply DictFacts.get_Some_keys in Hkb.
    rewrite Hid. split; by intros ->. }
  repeat (split; [done|]).
  split; [|apply DictFacts.get_set_eq].
  apply DictFacts.set_fresh. by apply DictFacts.get_None_keys.
Qed.

Lemma create_book_adds_new_record_witness :
  exists new_book,
    create_book "c9bf9e58-3f4a-4d1e-8a51-2f6d7b0e9a13" (seed_time + 50)
      (inr (JObj dune)) (serve sample_session seed)
    = (with_books (Dict.set "c9bf9e58-3f4a-4d1e-8a51-2f6d7b0e9a13" new_book)
         (serve sample_session seed),
       inr (BookBody new_book, 201))
    /\ b_id new_book = "c9bf9e58-3f4a-4d1e-8a51-2f6d7b0e9a13"
    /\ b_updated_at new_book = b_created_at new_book
    /\ b_stock new_book = JInt 0.
Proof.
  destruct (create_book_adds_new_record sample_session
              "c9bf9e58-3f4a-4d1e-8a51-2f6d7b0e9a13" (seed_time + 50) dune)
    as (nb & E & Hid & _ & _ & Hu & Hs & _).
  - reflexivity.
  - vm_compute. intros Hin.
    repeat (apply elem_of_cons in Hin as [[=]|Hin]).
    by apply elem_of_nil in Hin.
  - by required_present.
  - exists nb. split; [exact E|]. split; [exact Hid|]. split; [exact Hu|].
    exact Hs.
Defined.

(** Without that promise nothing in the handler stands in the way: an
    identifier already in the table makes the new record take the place
    of the old one. *)
Example create_book_same_identifier_twice :
  let s1 := (create_book "c9bf9e58-3f4a-4d1e-8a51-2f6d7b0e9a13" seed_time
               (inr (JObj dune)) seed).1 in
  let s2 := (create_book "c9bf9e58-3f4a-4d1e-8a51-2f6d7b0e9a13"
               (seed_time + 1) (inr (JObj dune)) s1).1 in
  Dict.keys (books s2) = Dict.keys (books s1)
  /\ length (books s2) = 4%nat.
Proof. vm_compute. auto. Qed.

(** ** Payloads that are not objects

    [request.get_json()] may hand over any JSON value.  Membership still
    answers on lists and strings, reading a key back does not. *)

Lemma patch_key_not_object_cases (book_id : string) (data : json)
    (key : string) (assign : json -> book -> book) (s : store) :
  (forall d, data <> JObj d) ->
  patch_key book_id data key assign s = (s, inl TypeError)
  \/ patch_key book_id data key assign s = (s, inr tt).
Proof.
  intros Hd. unfold patch_key, contains, getitem. handler_unfold.
  destruct data as [| | | | |l|d]; simpl; auto;
    try (by destruct (Hd d)); case_match; auto.
Qed.

(** On such a payload [partial_update_book] either raises before it has
    changed anything, or finds none of the six keys and only stamps. *)
Lemma partial_update_book_not_object (book_id : string) (utcnow : timestamp)
    (data : json) (s : store) (old : book) :
  Dict.get book_id (books s) = Some old ->
  (forall d, data <> JObj d) ->
  partial_update_book book_id utcnow (inr data) s = (s, inl TypeError)
  \/ partial_update_book book_id utcnow (inr data) s
     = (with_books (Dict.set book_id (set_updated_at utcnow old)) s,
        inr (BookBody (set_updated_at utcnow old), 200)).
Proof.
  intros Hold Hd. unfold partial_update_book. handler_unfold.
  rewrite (proj2 (DictFacts.contains_true _ _)) by eauto.
  cbv beta iota delta [negb].
  repeat
    match goal with
    | |- context [patch_key book_id data ?k ?f s] =>
        destruct (patch_key_not_object_cases book_id data k f s Hd)
          as [-> | ->]; [by left|]; cbv beta iota
    end.
  right. rewrite (with_books_alter _ _ _ _ Hold).
  unfold with_books at 1. simpl. by rewrite DictFacts.get_set_eq.
Qed.

Example create_book_null_payload :
  create_book "u" 0 (inr JNull) seed = (seed, inl TypeError).
Proof. reflexivity. Qed.

Example create_book_list_payload :
  create_book "u" 0 (inr (JArr [JStr "title"])) seed
  = (seed, inr (Error "Missing required field: author_id", 400)).
Proof. vm_compute. reflexivity. Qed.

Example create_book_undecodable_body :
  create_book "u" 0 (inl BadRequest) seed = (seed, inl BadRequest).
Proof. reflexivity. Qed.

(** ** Python comparisons on the seed prices *)

Example int_price_against_float_bounds :
  ge_float (JInt 13) 13%float = inr true
  /\ ge_float (JInt 13) 13.5%float = inr false
  /\ le_float (JInt 13) 13.5%float = inr true
  /\ ge_float (JBool true) 0.5%float = inr true
  /\ ge_float (JFloat 13.99) 13%float = inr true
  /\ le_float (JFloat 13.99) 14%float = inr true
  /\ ge_float (JFloat 13.99) nan = inr false
  /\ ge_float (JInt 13) nan = inr false
  /\ le_float (JInt (2 ^ 80)) infinity = inr true
  /\ ge_float (JStr "13.99") 13%float = inl TypeError.
Proof. vm_compute. repeat split. Qed.

(** ** The remaining tests of the specification *)

Example seed_books_titles :
  map (fun kv => (kv.1, b_title kv.2)) seed_books
  = [("1", JStr "The Great Gatsby"); ("2", JStr "To Kill a Mockingbird");
     ("3", JStr "1984")].
Proof. reflexivity. Qed.

Example seed_authors_names :
  map (fun kv => (kv.1, a_name kv.2)) seed_authors
  = [("1", JStr "F. Scott Fitzgerald"); ("2", JStr "Harper Lee");
     ("3", JStr "George Orwell")].
Proof. reflexivity. Qed.

Lemma delete_book_then_get_book (book_id : string) (s : store) :
  get_book book_id (delete_book book_id s).1
  = ((delete_book book_id s).1, inr (Error "Book not found", 404)).
Proof.
  unfold delete_book, get_book. handler_unfold.
  destruct (Dict.contains book_id (books s)) eqn:Hc; simpl.
  - by rewrite DictFacts.get_del_eq.
  - apply DictFacts.contains_false in Hc. by rewrite Hc.
Qed.

(** * Further properties of the handlers *)

(** ** More on insertion-ordered dictionaries *)

Module DictOrder.

Section Facts.
Context {V : Type}.
Implicit Types (k : string) (v : V) (d : list (string * V)).

(** A second assignment to a key wipes out the first. *)
Lemma set_set k v v' d : Dict.set k v' (Dict.set k v d) = Dict.set k v' d.
Proof.
  induction d as [|[k0 v0] d IH]; simpl.
  - by rewrite decide_True.
  - destruct (decide (k = k0)) as [->|]; simpl.
    + by rewrite decide_True.
    + by rewrite decide_False, IH.
Qed.

Lemma keys_set_fresh k v d :
  Dict.get k d = None -> Dict.keys (Dict.set k v d) = Dict.keys d ++ [k].
Proof.
  intros H. rewrite (DictFacts.set_fresh k v d H).
  unfold Dict.keys. by rewrite fmap_app.
Qed.

Lemma keys_del_filter k d :
  Dict.keys (Dict.del k d) = filter (fun k' => k' <> k) (Dict.keys d).
Proof.
  induction d as [|[k0 v0] d IH]; simpl; [done|].
  rewrite filter_cons. destruct (decide (k = k0)) as [->|Hne]; simpl.
  - by rewrite decide_False by (by intros ?).
  - rewrite decide_True by (by intros ->). by rewrite IH.
Qed.

(** Deleting a key that was just appended gives back the dictionary. *)
Lemma del_set_fresh k v d :
  Dict.get k d = None -> Dict.del k (Dict.set k v d) = d.
Proof.
  induction d as [|[k0 v0] d IH]; simpl.
  - by rewrite decide_True.
  - destruct (decide (k = k0)) as [->|]; [done|]. simpl.
    rewrite decide_False by done. intros H. by rewrite IH.
Qed.

Lemma NoDup_keys_set k v d :
  NoDup (Dict.keys d) -> NoDup (Dict.keys (Dict.set k v d)).
Proof.
  intros Hd. destruct (Dict.get k d) as [old|] eqn:Hk.
  - rewrite DictFacts.keys_set_present; [done|].
    apply DictFacts.contains_true. eauto.
  - rewrite keys_set_fresh by done.
    apply NoDup_app. split; [done|]. split; [|apply NoDup_singleton].
    intros x Hx Hx'. apply list_elem_of_singleton in Hx' as ->.
    by apply DictFacts.get_None_keys in Hk.
Qed.

Lemma NoDup_keys_del k d :
  NoDup (Dict.keys d) -> NoDup (Dict.keys (Dict.del k d)).
Proof. rewrite keys_del_filter. apply NoDup_filter. Qed.

Lemma length_set_present k v d :
  Dict.contains k d = true -> length (Dict.set k v d) = length d.
Proof.
  intros H. rewrite <- (length_fmap fst (Dict.set k v d)).
  change (fst <$> Dict.set k v d) with (Dict.keys (Dict.set k v d)).
  rewrite DictFacts.keys_set_present by done.
  unfold Dict.keys. by rewrite length_fmap.
Qed.

(** Deleting a key that is there, from a dictionary holding it once,
    takes exactly one entry away. *)
Lemma length_del_present k v d :
  NoDup (Dict.keys d) -> Dict.get k d = Some v ->
  S (length (Dict.del k d)) = length d.
Proof.
  induction d as [|[k0 v0] d IH]; simpl; [done|].
  intros Hnd Hk. apply NoDup_cons in Hnd as [Hk0 Hnd].
  destruct (decide (k = k0)) as [->|Hne]; simpl.
  - f_equal. f_equal. apply DictFacts.del_absent.
    by apply DictFacts.get_None_keys.
  - f_equal. by apply IH.
Qed.

End Facts.

End DictOrder.

(** ** Every outcome of a partial update *)

Lemma partial_update_book_cases (book_id : string) (utcnow : timestamp)
    (get_json : Exc json) (s : store) :
  (exists e, partial_update_book book_id utcnow get_json s = (s, inl e))
  \/ (Dict.get book_id (books s) = None
      /\ partial_update_book book_id utcnow get_json s
         = (s, inr (Error "Book not found", 404)))
  \/ (exists old nb,
        Dict.get book_id (books s) = Some old
        /\ b_id nb = b_id old
        /\ b_created_at nb = b_created_at old
        /\ b_updated_at nb = utcnow
        /\ partial_update_book book_id utcnow get_json s
           = (with_books (Dict.set book_id nb) s, inr (BookBody nb, 200))).
Proof.
  destruct (Dict.get book_id (books s)) as [old|] eqn:Hold.
  - destruct get_json as [e|data].
    { left. exists e. unfold partial_update_book. handler_unfold.
      by rewrite (proj2 (DictFacts.contains_true _ _)) by eauto. }
    assert (Hcase : (exists d, data = JObj d) \/ forall d, data <> JObj d)
      by (destruct data; eauto; right; intros ? [=]).
    destruct Hcase as [[d ->]|Hd].
    + right. right.
      rewrite (partial_update_book_object _ _ _ _ _ Hold). cbv zeta.
      match goal with
      | |- context [BookBody ?b] => exists old, b
      end.
      repeat split; reflexivity.
    + destruct (partial_update_book_not_object _ utcnow _ _ _ Hold Hd)
        as [E|E]; rewrite E; [left; eauto|].
      right. right. exists old, (set_updated_at utcnow old).
      repeat split; reflexivity.
  - right. left. split; [done|].
    unfold partial_update_book. handler_unfold.
    by rewrite (proj2 (DictFacts.contains_false _ _)) by done.
Qed.

(** Runs whichever handler the goal is about. *)
Ltac run_route :=
  try unfold get_books; try unfold get_book; try unfold create_book;
  try unfold update_book; try unfold delete_book; try unfold get_authors;
  try unfold get_author; try unfold create_author; try unfold update_author;
  try unfold delete_author; try unfold get_author_books;
  run_handler.

(** ** Failures change nothing *)

(** X1. A request that fails - its handler answers 400 or 404, or an
    exception escapes it - leaves both tables exactly as they were:
    no handler stores anything before its last check has passed. *)
Theorem failed_request_changes_nothing (r : request) (s : store) :
  succeeded (dispatch r s).2 = false ->
  (dispatch r s).1 = s.
Proof.
  destruct r; simpl;
    try (destruct (partial_update_book_cases book_id utcnow get_json s)
           as [[e E]|[[_ E]|(old & nb & _ & _ & _ & _ & E)]]; by rewrite E);
    run_route; done.
Qed.

Lemma failed_request_changes_nothing_witness :
  succeeded (dispatch (PATCH_book "1" 0 (inr (JArr [JStr "stock"]))) seed).2
  = false
  /\ (dispatch (PATCH_book "1" 0 (inr (JArr [JStr "stock"]))) seed).1 = seed.
Proof.
  split; [reflexivity|].
  apply (failed_request_changes_nothing
           (PATCH_book "1" 0 (inr (JArr [JStr "stock"]))) seed).
  reflexivity.
Defined.

(** ** Each route keeps to its table *)

(** X2. A GET request never changes a table, whatever it answers (a
    [TypeError] from a price comparison included); a request on a book
    route never changes the Author table; a request on an author route
    never changes the Book table. *)
Theorem routes_keep_to_their_table (r : request) (s : store) :
  (is_get r = true -> (dispatch r s).1 = s)
  /\ (book_route r = true -> authors (dispatch r s).1 = authors s)
  /\ (author_route r = true -> books (dispatch r s).1 = books s).
Proof.
  destruct r; simpl; (split; [|split]); try done; intros _;
    try (destruct (partial_update_book_cases book_id utcnow get_json s)
           as [[e E]|[[_ E]|(old & nb & _ & _ & _ & _ & E)]]; by rewrite E);
    run_route; done.
Qed.

(** ** Keys and record ids *)

Lemma effect_well_keyed (now : option timestamp) (uuid : option string)
    (s s' : store) :
  effect now uuid s s' -> well_keyed s -> well_keyed s'.
Proof.
  unfold well_keyed, ids_match, author_ids_match.
  intros Heff (Hb & Ha & Hbi & Hai).
  destruct Heff as [ | k nb x _ _ Hid _ _ | k old nb x _ Hold Hid _ _ | k
                   | k na x _ _ Hid _ _ | k old na x _ Hold Hid _ _ | k ];
    simpl; repeat split;
    auto using DictOrder.NoDup_keys_set, DictOrder.NoDup_keys_del,
      DictFacts.entries_del.
  - by apply DictFacts.entries_set.
  - apply DictFacts.entries_set; [|done]. simpl.
    destruct Hid as [?|Hid]; [done|]. rewrite Hid.
    apply get_Some_entry in Hold. rewrite Forall_forall in Hbi.
    apply (Hbi _ Hold).
  - by apply DictFacts.entries_set.
  - by apply DictFacts.entries_set.
Qed.

Lemma seed_well_keyed : well_keyed seed.
Proof.
  unfold well_keyed, ids_match, author_ids_match.
  split; [by apply (bool_decide_unpack _)|].
  split; [by apply (bool_decide_unpack _)|].
  split; by repeat constructor.
Qed.

Lemma serve_well_keyed (rs : list request) :
  forall s, well_keyed s -> well_keyed (serve rs s).
Proof.
  induction rs as [|r rs IH]; intros s Hs; [done|].
  rewrite serve_cons. apply IH.
  by eapply effect_well_keyed; [apply dispatch_effect|].
Qed.

(** X3. Whatever requests are served from the seed tables, in each table
    every key occurs once and every record sits under its own id, so no
    two records of a table share an id: PUT and PATCH cannot move or
    rename a record, POST can only overwrite the record of the same id. *)
Theorem tables_stay_well_keyed (rs : list request) :
  well_keyed (serve rs seed)
  /\ NoDup (b_id <$> Dict.values (books (serve rs seed)))
  /\ NoDup (a_id <$> Dict.values (authors (serve rs seed))).
Proof.
  pose proof (serve_well_keyed rs seed seed_well_keyed) as Hwk.
  split; [done|]. destruct Hwk as (Hb & Ha & Hbi & Hai).
  unfold ids_match in Hbi. unfold author_ids_match in Hai.
  unfold Dict.values, Dict.keys in *. rewrite <- !list_fmap_compose.
  split.
  - erewrite (Forall_fmap_ext_1 (b_id ∘ snd)); [exact Hb|].
    eapply Forall_impl; [exact Hbi|]. by intros [k b].
  - erewrite (Forall_fmap_ext_1 (a_id ∘ snd)); [exact Ha|].
    eapply Forall_impl; [exact Hai|]. by intros [k a].
Qed.

(** ** Reading back what was written *)

Lemma get_book_set (k : string) (b : book) (s : store) :
  get_book k (with_books (Dict.set k b) s)
  = (with_books (Dict.set k b) s, inr (BookBody b, 200)).
Proof.
  unfold get_book. handler_unfold. simpl. by rewrite DictFacts.get_set_eq.
Qed.

Lemma get_author_set (k : string) (a : author) (s : store) :
  get_author k (with_authors (Dict.set k a) s)
  = (with_authors (Dict.set k a) s, inr (AuthorBody a, 200)).
Proof.
  unfold get_author. handler_unfold. simpl. by rewrite DictFacts.get_set_eq.
Qed.

(** X4. Whenever POST, PUT or PATCH on a book answers with a book
    record - for any body, object or not - a GET of that id right after
    answers 200 with exactly that record. *)
Theorem get_book_after_write (k : string) (utcnow : timestamp)
    (get_json : Exc json) (s : store) (b : book) (status : Z) (r : request) :
  r = POST_books k utcnow get_json \/ r = PUT_book k utcnow get_json
  \/ r = PATCH_book k utcnow get_json ->
  (dispatch r s).2 = inr (BookBody b, status) ->
  get_book k (dispatch r s).1 = ((dispatch r s).1, inr (BookBody b, 200)).
Proof.
  intros [-> | [-> | ->]]; simpl.
  - unfold create_book. run_handler; intros [= <- <-]; apply get_book_set.
  - unfold update_book. run_handler; intros [= <- <-]; apply get_book_set.
  - destruct (partial_update_book_cases k utcnow get_json s)
      as [[e E]|[[_ E]|(old & nb & _ & _ & _ & _ & E)]]; rewrite E; simpl;
      intros [= <- <-]. apply get_book_set.
Qed.

Lemma get_book_after_write_witness :
  exists b,
    (dispatch (PATCH_book "2" (seed_time + 5) (inr (JObj stock_5))) seed).2
    = inr (BookBody b, 200)
    /\ get_book "2"
         (dispatch (PATCH_book "2" (seed_time + 5) (inr (JObj stock_5))) seed).1
       = ((dispatch (PATCH_book "2" (seed_time + 5) (inr (JObj stock_5)))
             seed).1,
          inr (BookBody b, 200)).
Proof.
  eexists. split; [vm_compute; reflexivity|].
  apply (get_book_after_write "2" (seed_time + 5) (inr (JObj stock_5)) seed
           _ 200 (PATCH_book "2" (seed_time + 5) (inr (JObj stock_5)))).
  - right. right. reflexivity.
  - vm_compute. reflexivity.
Defined.

(** X5. The same for authors: whenever POST or PUT on an author answers
    with an author record, a GET of that id right after answers 200 with
    exactly that record. *)
Theorem get_author_after_write (k : string) (utcnow : timestamp)
    (get_json : Exc json) (s : store) (a : author) (status : Z)
    (r : request) :
  r = POST_authors k utcnow get_json \/ r = PUT_author k utcnow get_json ->
  (dispatch r s).2 = inr (AuthorBody a, status) ->
  get_author k (dispatch r s).1
  = ((dispatch r s).1, inr (AuthorBody a, 200)).
Proof.
  intros [-> | ->]; simpl.
  - unfold create_author. run_handler; intros [= <- <-];
      apply get_author_set.
  - unfold update_author. run_handler; intros [= <- <-];
      apply get_author_set.
Qed.

Lemma get_author_after_write_witness :
  exists a,
    (dispatch (PUT_author "3" (seed_time + 5) (inr (JObj eric_blair))) seed).2
    = inr (AuthorBody a, 200)
    /\ get_author "3"
         (dispatch (PUT_author "3" (seed_time + 5) (inr (JObj eric_blair)))
            seed).1
       = ((dispatch (PUT_author "3" (seed_time + 5) (inr (JObj eric_blair)))
             seed).1,
          inr (AuthorBody a, 200)).
Proof.
  eexists. split; [vm_compute; reflexivity|].
  apply (get_author_after_write "3" (seed_time + 5) (inr (JObj eric_blair))
           seed _ 200 (PUT_author "3" (seed_time + 5) (inr (JObj eric_blair)))).
  - right. reflexivity.
  - vm_compute. reflexivity.
Defined.

(** ** Deleting a book *)

(** X6. [delete_book] on an id of the table answers 204 with an empty
    body; after it the id is gone (a GET and a second DELETE both answer
    404), every other book is where and what it was, and the Author table
    is untouched.  In a state reached from the seed tables the Book table
    is shorter by exactly one. *)
Theorem delete_book_removes_one (history : list request) (book_id : string)
    (b : book) :
  Dict.get book_id (books (serve history seed)) = Some b ->
  let s := serve history seed in
  let s' := (delete_book book_id s).1 in
  delete_book book_id s = (with_books (Dict.del book_id) s, inr (Empty, 204))
  /\ get_book book_id s' = (s', inr (Error "Book not found", 404))
  /\ delete_book book_id s' = (s', inr (Error "Book not found", 404))
  /\ (forall k, k <> book_id -> Dict.get k (books s') = Dict.get k (books s))
  /\ Dict.keys (books s')
     = filter (fun k => k <> book_id) (Dict.keys (books s))
  /\ S (length (books s')) = length (books s)
  /\ authors s' = authors s.
Proof.
  intros Hb s s'.
  assert (E : delete_book book_id s
              = (with_books (Dict.del book_id) s, inr (Empty, 204))).
  { unfold delete_book. handler_unfold.
    by rewrite (proj2 (DictFacts.contains_true _ _)) by eauto. }
  subst s'. rewrite E. simpl. split; [done|].
  split. { unfold get_book. handler_unfold. simpl.
           by rewrite DictFacts.get_del_eq. }
  split. { unfold delete_book. handler_unfold. simpl.
           rewrite (proj2 (DictFacts.contains_false _ _));
             [done | apply DictFacts.get_del_eq]. }
  split; [intros k Hk; by apply DictFacts.get_del_ne|].
  split; [apply DictOrder.keys_del_filter|].
  split; [|done].
  apply (DictOrder.length_del_present _ b); [|done].
  apply (serve_well_keyed history seed seed_well_keyed).
Qed.

Lemma delete_book_removes_one_witness :
  exists b,
    Dict.get "2" (books (serve sample_session seed)) = Some b
    /\ delete_book "2" (serve sample_session seed)
       = (with_books (Dict.del "2") (serve sample_session seed),
          inr (Empty, 204))
    /\ S (length (books (delete_book "2" (serve sample_session seed)).1))
       = length (books (serve sample_session seed)).
Proof.
  eexists. split; [vm_compute; reflexivity|].
  destruct (delete_book_removes_one sample_session "2" _
              ltac:(vm_compute; reflexivity))
    as (E & _ & _ & _ & _ & L & _).
  split; [exact E | exact L].
Defined.

(** X7. Creating a book under an identifier that is not yet a key and
    deleting it right after gives back the tables exactly as they were,
    order included. *)
Theorem create_book_then_delete_book (uuid4 : string) (utcnow : timestamp)
    (d : gmap string json) (s : store) :
  Dict.get uuid4 (books s) = None ->
  (forall field, field ∈ book_required_fields -> is_Some (d !! field)) ->
  delete_book uuid4 (create_book uuid4 utcnow (inr (JObj d)) s).1
  = (s, inr (Empty, 204)).
Proof.
  intros Hfresh Hreq.
  destruct (required_fields_present d Hreq)
    as (v1 & v2 & v3 & v4 & v5 & H1 & H2 & H3 & H4 & H5).
  rewrite (create_book_object uuid4 utcnow d s _ _ _ _ _ H1 H2 H3 H4 H5).
  cbv zeta. unfold delete_book. handler_unfold. simpl.
  rewrite (proj2 (DictFacts.contains_true _ _))
    by (eexists; apply DictFacts.get_set_eq).
  simpl. unfold with_books. simpl.
  rewrite DictOrder.del_set_fresh by done. by destruct s.
Qed.

Lemma create_book_then_delete_book_witness :
  Dict.get "c9bf9e58-3f4a-4d1e-8a51-2f6d7b0e9a13" (books seed) = None
  /\ delete_book "c9bf9e58-3f4a-4d1e-8a51-2f6d7b0e9a13"
       (create_book "c9bf9e58-3f4a-4d1e-8a51-2f6d7b0e9a13" seed_time
          (inr (JObj dune)) seed).1
     = (seed, inr (Empty, 204)).
Proof.
  split; [reflexivity|].
  apply (create_book_then_delete_book "c9bf9e58-3f4a-4d1e-8a51-2f6d7b0e9a13"
           seed_time dune seed); [reflexivity | by required_present].
Defined.

(** ** Replace *)

(** X8. [update_book] on an id of the table with a payload from which a
    required field is missing answers 400 naming the first such field and
    changes nothing: the stored record keeps every field, [updated_at]
    included. *)
Theorem update_book_missing_field_400 (book_id : string)
    (utcnow : timestamp) (data : json) (s : store) (old : book)
    (field : string) :
  Dict.get book_id (books s) = Some old ->
  field ∈ book_required_fields ->
  contains field data = inr false ->
  exists missing,
    first_missing book_required_fields data = inr (Some missing)
    /\ contains missing data = inr false
    /\ update_book book_id utcnow (inr data) s
       = (s, inr (Error ("Missing required field: " +:+ missing), 400))
    /\ Dict.get book_id (books (update_book book_id utcnow (inr data) s).1)
       = Some old.
Proof.
  intros Hold Hin Hf.
  destruct (first_missing_some _ _ _ Hin Hf) as (m & Hm & _ & Hmf).
  exists m.
  assert (E : update_book book_id utcnow (inr data) s
              = (s, inr (Error ("Missing required field: " +:+ m), 400))).
  { unfold update_book. handler_unfold.
    rewrite (proj2 (DictFacts.contains_true _ _)) by eauto.
    cbv beta iota delta [negb]. by rewrite Hm. }
  rewrite E. by repeat split.
Qed.

Lemma update_book_missing_field_400_witness :
  exists old,
    Dict.get "1" (books seed) = Some old
    /\ update_book "1" (seed_time + 1) (inr (JObj dune_without_price)) seed
       = (seed, inr (Error "Missing required field: price", 400)).
Proof.
  eexists. split; [reflexivity|].
  destruct (update_book_missing_field_400 "1" (seed_time + 1)
              (JObj dune_without_price) seed _ "price" eq_refl)
    as (m & Hm & _ & E & _).
  - unfold book_required_fields. set_solver.
  - vm_compute. reflexivity.
  - rewrite E. vm_compute in Hm. by injection Hm as <-.
Defined.

(** X9. [update_book] on an id of the table with an object payload
    holding all required fields answers 200 and replaces the record
    wholesale: the five required fields are the payload's, [stock] is the
    payload's or 0 - the stored stock is not kept -, [id] is the given
    id, [created_at] the stored one, [updated_at] the clock reading.  The
    record stays at its place in the table order; the other books and the
    Author table are untouched. *)
Theorem update_book_replaces (book_id : string) (utcnow : timestamp)
    (d : gmap string json) (s : store) (old : book) :
  Dict.get book_id (books s) = Some old ->
  (forall field, field ∈ book_required_fields -> is_Some (d !! field)) ->
  exists updated_book,
    update_book book_id utcnow (inr (JObj d)) s
    = (with_books (Dict.set book_id updated_book) s,
       inr (BookBody updated_book, 200))
    /\ b_id updated_book = book_id
    /\ d !! "title" = Some (b_title updated_book)
    /\ d !! "author_id" = Some (b_author_id updated_book)
    /\ d !! "isbn" = Some (b_isbn updated_book)
    /\ d !! "published_year" = Some (b_published_year updated_book)
    /\ d !! "price" = Some (b_price updated_book)
    /\ b_stock updated_book = default (JInt 0) (d !! "stock")
    /\ b_created_at updated_book = b_created_at old
    /\ b_updated_at updated_book = utcnow
    /\ Dict.keys (Dict.set book_id updated_book (books s))
       = Dict.keys (books s)
    /\ (forall k, k <> book_id ->
          Dict.get k (Dict.set book_id updated_book (books s))
          = Dict.get k (books s)).
Proof.
  intros Hold Hreq.
  destruct (required_fields_present d Hreq)
    as (v1 & v2 & v3 & v4 & v5 & H1 & H2 & H3 & H4 & H5).
  rewrite (update_book_object book_id utcnow d s old _ _ _ _ _
             Hold H1 H2 H3 H4 H5).
  cbv zeta. eexists. split; [reflexivity|]. simpl.
  repeat (split; [done|]). split.
  - apply DictFacts.keys_set_present, DictFacts.contains_true. eauto.
  - intros k Hk. by apply DictFacts.get_set_ne.
Qed.

Lemma update_book_replaces_witness :
  exists updated_book,
    update_book "1" (seed_time + 1) (inr (JObj dune)) seed
    = (with_books (Dict.set "1" updated_book) seed,
       inr (BookBody updated_book, 200))
    /\ b_stock updated_book = JInt 0
    /\ b_created_at updated_book = seed_time.
Proof.
  destruct (update_book_replaces "1" (seed_time + 1) dune seed _ eq_refl)
    as (u & E & _ & _ & _ & _ & _ & _ & Hs & Hc & _).
  { by required_present. }
  exists u. split; [exact E|]. split; [exact Hs | exact Hc].
Defined.

(** ** How partial updates and replacements compose *)

Lemma with_books_set_set (k : string) (b b' : book) (s : store) :
  with_books (Dict.set k b') (with_books (Dict.set k b) s)
  = with_books (Dict.set k b') s.
Proof. unfold with_books. simpl. by rewrite DictOrder.set_set. Qed.

Lemma default_union (x : json) (d1 d2 : gmap string json) (key : string) :
  default (default x (d1 !! key)) (d2 !! key) = default x ((d2 ∪ d1) !! key).
Proof.
  rewrite lookup_union. by destruct (d2 !! key), (d1 !! key).
Qed.

(** X10. Two partial updates in a row amount to one: patching with
    [d1] and then with [d2] leaves the same tables and gives the same
    answer as patching once with the union of the two payloads, [d2]
    winning on the keys they share, at the second clock reading. *)
Theorem partial_update_book_twice (book_id : string) (t1 t2 : timestamp)
    (d1 d2 : gmap string json) (s : store) (old : book) :
  Dict.get book_id (books s) = Some old ->
  partial_update_book book_id t2 (inr (JObj d2))
    (partial_update_book book_id t1 (inr (JObj d1)) s).1
  = partial_update_book book_id t2 (inr (JObj (d2 ∪ d1))) s.
Proof.
  intros Hold.
  rewrite (partial_update_book_object book_id t1 d1 s old Hold). cbv zeta.
  simpl.
  erewrite (partial_update_book_object book_id t2 d2);
    [|apply DictFacts.get_set_eq].
  rewrite (partial_update_book_object book_id t2 (d2 ∪ d1) s old Hold).
  cbv zeta. simpl. rewrite with_books_set_set.
  by rewrite !default_union.
Qed.

Lemma partial_update_book_twice_witness :
  Dict.get "1" (books seed) <> None
  /\ partial_update_book "1" (seed_time + 2) (inr (JObj stock_5))
       (partial_update_book "1" (seed_time + 1) (inr (JObj dune_retitled))
          seed).1
     = partial_update_book "1" (seed_time + 2)
         (inr (JObj (stock_5 ∪ dune_retitled))) seed.
Proof.
  split; [by vm_compute|].
  apply (partial_update_book_twice "1" (seed_time + 1) (seed_time + 2)
           dune_retitled stock_5 seed _ eq_refl).
Defined.

(** X11. A replacement makes an earlier partial update irrelevant:
    after any PATCH of the same book, whatever its body and outcome, a
    PUT with a valid payload leaves the same tables and gives the same
    answer as that PUT alone. *)
Theorem update_book_after_partial_update (book_id : string)
    (t1 t2 : timestamp) (patch : Exc json) (d : gmap string json)
    (s : store) (old : book) :
  Dict.get book_id (books s) = Some old ->
  (forall field, field ∈ book_required_fields -> is_Some (d !! field)) ->
  update_book book_id t2 (inr (JObj d))
    (partial_update_book book_id t1 patch s).1
  = update_book book_id t2 (inr (JObj d)) s.
Proof.
  intros Hold Hreq.
  destruct (required_fields_present d Hreq)
    as (v1 & v2 & v3 & v4 & v5 & H1 & H2 & H3 & H4 & H5).
  destruct (partial_update_book_cases book_id t1 patch s)
    as [[e E]|[[_ E]|(old' & nb & Hold' & _ & Hc & _ & E)]];
    rewrite E; simpl; try done.
  rewrite (update_book_object book_id t2 d
             (with_books (Dict.set book_id nb) s) nb _ _ _ _ _
             (DictFacts.get_set_eq _ _ _) H1 H2 H3 H4 H5).
  rewrite (update_book_object book_id t2 d s old _ _ _ _ _
             Hold H1 H2 H3 H4 H5).
  cbv zeta. rewrite with_books_set_set.
  rewrite Hold in Hold'. injection Hold' as <-. by rewrite Hc.
Qed.

Lemma update_book_after_partial_update_witness :
  Dict.get "1" (books seed) <> None
  /\ update_book "1" (seed_time + 2) (inr (JObj dune))
       (partial_update_book "1" (seed_time + 1) (inr (JObj stock_5)) seed).1
     = update_book "1" (seed_time + 2) (inr (JObj dune)) seed.
Proof.
  split; [by vm_compute|].
  apply (update_book_after_partial_update "1" (seed_time + 1) (seed_time + 2)
           (inr (JObj stock_5)) dune seed _ eq_refl).
  by required_present.
Defined.

(** ** Price comparisons on unchecked prices *)

Lemma comprehension_type_error {A : Type} (p : A -> Exc bool) (l : list A)
    (x : A) :
  (forall y e, p y = inl e -> e = TypeError) ->
  x ∈ l -> p x = inl TypeError ->
  comprehension p l = inl TypeError.
Proof.
  intros Hp Hx Hpx. induction l as [|y l IH]; [by inversion Hx|].
  simpl. destruct (p y) as [e|keep] eqn:Hy.
  - by rewrite (Hp y e Hy).
  - apply elem_of_cons in Hx as [->|Hx]; [congruence|].
    by rewrite (IH Hx).
Qed.

Lemma ge_float_type_error (v : json) (m : float) (e : pyexn) :
  ge_float v m = inl e -> e = TypeError.
Proof. unfold ge_float. repeat case_match; congruence. Qed.

Lemma le_float_type_error (v : json) (m : float) (e : pyexn) :
  le_float v m = inl e -> e = TypeError.
Proof. unfold le_float. repeat case_match; congruence. Qed.

(** X12. [get_books] with a price bound raises [TypeError] as soon as
    one book that passes the [author_id] step has a price that is not a
    number - a string, [null], a list or an object, all of which POST,
    PUT and PATCH store unchecked.  The tables are left as they were. *)
Theorem get_books_unordered_price_raises (author_id : option string)
    (min_price max_price : option float) (s : store) (b : book) :
  is_Some min_price \/ is_Some max_price ->
  b ∈ Dict.values (books s) ->
  passes_author author_id b = true ->
  as_number (b_price b) = None ->
  get_books author_id min_price max_price s = (s, inl TypeError).
Proof.
  intros Hbound Hb Hauthor Hprice.
  assert (Hge : forall m, ge_float (b_price b) m = inl TypeError)
    by (intros m; unfold ge_float; by rewrite Hprice).
  assert (Hle : forall m, le_float (b_price b) m = inl TypeError)
    by (intros m; unfold le_float; by rewrite Hprice).
  unfold passes_author in Hauthor.
  unfold get_books. handler_unfold.
  destruct (truthy author_id) eqn:Ht; cbv beta iota.
  - assert (Hin : b ∈ filter (fun b0 => eq_str (b_author_id b0)
                                          (default "" author_id))
                        (Dict.values (books s)))
      by (apply list_elem_of_filter; split; [by apply Is_true_true | done]).
    destruct min_price as [m|]; cbv beta iota.
    + by rewrite (comprehension_type_error _ _ b
                    (fun y => ge_float_type_error _ m) Hin (Hge m)).
    + destruct max_price as [m|]; [|by destruct Hbound as [[? [=]]|[? [=]]]].
      cbv beta iota.
      by rewrite (comprehension_type_error _ _ b
                    (fun y => le_float_type_error _ m) Hin (Hle m)).
  - destruct min_price as [m|]; cbv beta iota.
    + by rewrite (comprehension_type_error _ _ b
                    (fun y => ge_float_type_error _ m) Hb (Hge m)).
    + destruct max_price as [m|]; [|by destruct Hbound as [[? [=]]|[? [=]]]].
      cbv beta iota.
      by rewrite (comprehension_type_error _ _ b
                    (fun y => le_float_type_error _ m) Hb (Hle m)).
Qed.

Lemma get_books_unordered_price_raises_witness :
  get_books None None (Some 20%float)
    (create_book "c9bf9e58-3f4a-4d1e-8a51-2f6d7b0e9a13" seed_time
       (inr (JObj dune_priced_in_words)) seed).1
  = ((create_book "c9bf9e58-3f4a-4d1e-8a51-2f6d7b0e9a13" seed_time
        (inr (JObj dune_priced_in_words)) seed).1,
     inl TypeError).
Proof.
  eapply (get_books_unordered_price_raises None None (Some 20%float)).
  - right. by eexists.
  - apply (DictFacts.get_Some_values "c9bf9e58-3f4a-4d1e-8a51-2f6d7b0e9a13").
    vm_compute. reflexivity.
  - reflexivity.
  - vm_compute. reflexivity.
Defined.

(** ** Books and authors are only loosely tied *)

(** X13. After [delete_author] the author's id answers 404 on both
    [get_author] and [get_author_books], yet every book route answers as
    before: the books naming that author are still listed by [get_books]
    (filtered on that very id too) and still found by [get_book]. *)
Theorem delete_author_leaves_its_books_listed (author_id : string)
    (s : store) (a : option string) (min_price max_price : option float)
    (book_id : string) :
  let s' := (delete_author author_id s).1 in
  get_author author_id s' = (s', inr (Error "Author not found", 404))
  /\ get_author_books author_id s'
     = (s', inr (Error "Author not found", 404))
  /\ (get_books a min_price max_price s').2
     = (get_books a min_price max_price s).2
  /\ (get_book book_id s').2 = (get_book book_id s).2.
Proof.
  intros s'.
  assert (Hb : books s' = books s /\ Dict.get author_id (authors s') = None).
  { subst s'. unfold delete_author. handler_unfold.
    destruct (Dict.contains author_id (authors s)) eqn:Hc; simpl.
    - split; [done | apply DictFacts.get_del_eq].
    - split; [done | by apply DictFacts.contains_false]. }
  destruct Hb as [Hb Ha]. clearbody s'.
  split; [unfold get_author; handler_unfold; by rewrite Ha|].
  split; [unfold get_author_books; handler_unfold; by rewrite Ha|].
  split.
  - unfold get_books. handler_unfold. rewrite Hb. run_handler; done.
  - unfold get_book. handler_unfold. rewrite Hb. run_handler; done.
Qed.

(** X14. No book route consults the Author table: with the same Book
    table, a book request gets the same answer and leaves the same Book
    table whatever authors there are.  So nothing ever checks that the
    [author_id] of a book names an author. *)
Theorem book_routes_ignore_authors (r : request) (s1 s2 : store) :
  book_route r = true ->
  books s1 = books s2 ->
  (dispatch r s1).2 = (dispatch r s2).2
  /\ books (dispatch r s1).1 = books (dispatch r s2).1.
Proof.
  intros Hr Hb. destruct s1 as [b a1], s2 as [b2 a2]. simpl in Hb. subst b2.
  destruct r; simpl in Hr; try done; simpl.
  - unfold get_books. run_handler; done.
  - unfold get_book. run_handler; done.
  - unfold create_book. run_handler; done.
  - unfold update_book. run_handler; done.
  - unfold partial_update_book, patch_key. run_handler; done.
  - unfold delete_book. run_handler; done.
Qed.

Lemma book_routes_ignore_authors_witness :
  (dispatch (POST_books "c9bf9e58-3f4a-4d1e-8a51-2f6d7b0e9a13" seed_time
               (inr (JObj dune))) seed).2
  = (dispatch (POST_books "c9bf9e58-3f4a-4d1e-8a51-2f6d7b0e9a13" seed_time
                 (inr (JObj dune)))
       (with_authors (fun _ => []) seed)).2
  /\ books (dispatch (POST_books "c9bf9e58-3f4a-4d1e-8a51-2f6d7b0e9a13"
                        seed_time (inr (JObj dune))) seed).1
     = books (dispatch (POST_books "c9bf9e58-3f4a-4d1e-8a51-2f6d7b0e9a13"
                          seed_time (inr (JObj dune)))
                (with_authors (fun _ => []) seed)).1.
Proof.
  apply (book_routes_ignore_authors
           (POST_books "c9bf9e58-3f4a-4d1e-8a51-2f6d7b0e9a13" seed_time
              (inr (JObj dune)))
           seed (with_authors (fun _ => []) seed)); reflexivity.
Defined.

(** ** Unknown ids *)

(** X15. Every route addressed by an id answers 404 and changes nothing
    when the id is not a key of its table - [get_book],
    [partial_update_book] and [delete_book] with "Book not found",
    [get_author], [update_author] and [delete_author] with "Author not
    found" - and the two that take a body do so before decoding it. *)
Theorem unknown_id_answers_404 (k : string) (utcnow : timestamp)
    (get_json : Exc json) (s : store) :
  (Dict.get k (books s) = None ->
   get_book k s = (s, inr (Error "Book not found", 404))
   /\ partial_update_book k utcnow get_json s
      = (s, inr (Error "Book not found", 404))
   /\ delete_book k s = (s, inr (Error "Book not found", 404)))
  /\ (Dict.get k (authors s) = None ->
      get_author k s = (s, inr (Error "Author not found", 404))
      /\ update_author k utcnow get_json s
         = (s, inr (Error "Author not found", 404))
      /\ delete_author k s = (s, inr (Error "Author not found", 404))).
Proof.
  split; intros Hk; pose proof (proj2 (DictFacts.contains_false _ _) Hk) as Hc;
    repeat split.
  - unfold get_book. handler_unfold. by rewrite Hk.
  - unfold partial_update_book. handler_unfold. by rewrite Hc.
  - unfold delete_book. handler_unfold. by rewrite Hc.
  - unfold get_author. handler_unfold. by rewrite Hk.
  - unfold update_author. handler_unfold. by rewrite Hc.
  - unfold delete_author. handler_unfold. by rewrite Hc.
Qed.

(** ** Authors *)

Lemma author_fields_present (d : gmap string json) :
  (forall field, field ∈ author_required_fields -> is_Some (d !! field)) ->
  exists name birth_year nationality,
    d !! "name" = Some name /\ d !! "birth_year" = Some birth_year
    /\ d !! "nationality" = Some nationality.
Proof.
  intros H.
  destruct (H "name") as [v1 ?]; [set_solver|].
  destruct (H "birth_year") as [v2 ?]; [set_solver|].
  destruct (H "nationality") as [v3 ?]; [set_solver|].
  by exists v1, v2, v3.
Qed.

Lemma create_author_object (uuid4 : string) (utcnow : timestamp)
    (d : gmap string json) (s : store) (name birth_year nationality : json) :
  d !! "name" = Some name -> d !! "birth_year" = Some birth_year ->
  d !! "nationality" = Some nationality ->
  create_author uuid4 utcnow (inr (JObj d)) s
  = let new_author :=
      {| a_id := uuid4; a_name := name; a_birth_year := birth_year;
         a_nationality := nationality;
         a_created_at := utcnow; a_updated_at := utcnow |} in
    (with_authors (Dict.set uuid4 new_author) s,
     inr (AuthorBody new_author, 201)).
Proof.
  intros H1 H2 H3. unfold create_author. handler_unfold.
  cbv beta iota. rewrite first_missing_none by (by required_present).
  unfold getitem. by rewrite H1, H2, H3.
Qed.

Lemma update_author_object (author_id : string) (utcnow : timestamp)
    (d : gmap string json) (s : store) (old : author)
    (name birth_year nationality : json) :
  Dict.get author_id (authors s) = Some old ->
  d !! "name" = Some name -> d !! "birth_year" = Some birth_year ->
  d !! "nationality" = Some nationality ->
  update_author author_id utcnow (inr (JObj d)) s
  = let updated_author :=
      {| a_id := author_id; a_name := name; a_birth_year := birth_year;
         a_nationality := nationality;
         a_created_at := a_created_at old; a_updated_at := utcnow |} in
    (with_authors (Dict.set author_id updated_author) s,
     inr (AuthorBody updated_author, 200)).
Proof.
  intros Hold H1 H2 H3. unfold update_author. handler_unfold.
  rewrite (proj2 (DictFacts.contains_true _ _)) by eauto.
  cbv beta iota delta [negb]. rewrite first_missing_none by (by required_present).
  unfold getitem. by rewrite Hold, H1, H2, H3.
Qed.

(** X16. For every payload from which at least one of name, birth_year,
    nationality is missing, [create_author] - and [update_author] on any
    id of the table - answers 400 with "Missing required field: " and the
    first such field, and changes nothing. *)
Theorem author_missing_field_400 (uuid4 : string) (utcnow : timestamp)
    (data : json) (s : store) (field : string) :
  field ∈ author_required_fields ->
  contains field data = inr false ->
  exists missing,
    missing ∈ author_required_fields
    /\ first_missing author_required_fields data = inr (Some missing)
    /\ contains missing data = inr false
    /\ create_author uuid4 utcnow (inr data) s
       = (s, inr (Error ("Missing required field: " +:+ missing), 400))
    /\ (forall k, Dict.contains k (authors s) = true ->
          update_author k utcnow (inr data) s
          = (s, inr (Error ("Missing required field: " +:+ missing), 400))).
Proof.
  intros Hin Hf.
  destruct (first_missing_some _ _ _ Hin Hf) as (m & Hm & Hmin & Hmf).
  exists m. repeat split; try done.
  - unfold create_author. handler_unfold. by rewrite Hm.
  - intros k Hk. unfold update_author. handler_unfold. rewrite Hk.
    cbv beta iota delta [negb]. by rewrite Hm.
Qed.

Lemma author_missing_field_400_witness :
  create_author "u" 0 (inr (JObj (delete "nationality" eric_blair))) seed
  = (seed, inr (Error "Missing required field: nationality", 400)).
Proof.
  destruct (author_missing_field_400 "u" 0
              (JObj (delete "nationality" eric_blair)) seed "nationality")
    as (m & _ & Hm & _ & E & _).
  - unfold author_required_fields. set_solver.
  - vm_compute. reflexivity.
  - rewrite E. vm_compute in Hm. by injection Hm as <-.
Defined.

(** X17. For every object payload holding name, birth_year and
    nationality, [create_author] answers 201 with a record made of those
    three values, the generated id and the clock reading as both
    [created_at] and [updated_at]; the Book table is untouched.  When the
    id is not yet a key, the author is appended: [get_authors] then lists
    the former authors in their order, the new one last, and a count one
    higher. *)
Theorem create_author_adds_author (uuid4 : string) (utcnow : timestamp)
    (d : gmap string json) (s : store) :
  (forall field, field ∈ author_required_fields -> is_Some (d !! field)) ->
  exists na,
    create_author uuid4 utcnow (inr (JObj d)) s
    = (with_authors (Dict.set uuid4 na) s, inr (AuthorBody na, 201))
    /\ a_id na = uuid4
    /\ d !! "name" = Some (a_name na)
    /\ d !! "birth_year" = Some (a_birth_year na)
    /\ d !! "nationality" = Some (a_nationality na)
    /\ a_created_at na = utcnow /\ a_updated_at na = utcnow
    /\ books (with_authors (Dict.set uuid4 na) s) = books s
    /\ (Dict.get uuid4 (authors s) = None ->
        get_authors (with_authors (Dict.set uuid4 na) s)
        = (with_authors (Dict.set uuid4 na) s,
           inr (AuthorList (Dict.values (authors s) ++ [na])
                  (S (length (authors s))), 200))).
Proof.
  intros Hreq.
  destruct (author_fields_present d Hreq) as (v1 & v2 & v3 & H1 & H2 & H3).
  rewrite (create_author_object uuid4 utcnow d s _ _ _ H1 H2 H3).
  cbv zeta. eexists. split; [reflexivity|]. simpl.
  repeat (split; [done|]).
  intros Hfresh. unfold get_authors. handler_unfold. simpl.
  rewrite (DictFacts.set_fresh _ _ _ Hfresh).
  unfold Dict.values. rewrite fmap_app, length_app. simpl.
  by rewrite Nat.add_1_r.
Qed.

Lemma create_author_adds_author_witness :
  exists na,
    create_author "6f9619ff-8b86-4d01-b42d-00cf4fc964ff" seed_time
      (inr (JObj eric_blair)) seed
    = (with_authors (Dict.set "6f9619ff-8b86-4d01-b42d-00cf4fc964ff" na) seed,
       inr (AuthorBody na, 201))
    /\ a_created_at na = seed_time /\ a_updated_at na = seed_time.
Proof.
  destruct (create_author_adds_author "6f9619ff-8b86-4d01-b42d-00cf4fc964ff"
              seed_time eric_blair seed)
    as (na & E & _ & _ & _ & _ & Hc & Hu & _).
  { by required_present. }
  exists na. split; [exact E|]. split; [exact Hc | exact Hu].
Defined.

(** X18. [update_author] on an id of the table with an object payload
    holding name, birth_year and nationality answers 200 and replaces the
    record: the three fields are the payload's, [id] is the given id,
    [created_at] the stored one, [updated_at] the clock reading.  The
    author keeps its place in the table order; the other authors and the
    whole Book table - the books naming this author included - are
    untouched. *)
Theorem update_author_replaces (author_id : string) (utcnow : timestamp)
    (d : gmap string json) (s : store) (old : author) :
  Dict.get author_id (authors s) = Some old ->
  (forall field, field ∈ author_required_fields -> is_Some (d !! field)) ->
  exists ua,
    update_author author_id utcnow (inr (JObj d)) s
    = (with_authors (Dict.set author_id ua) s, inr (AuthorBody ua, 200))
    /\ a_id ua = author_id
    /\ d !! "name" = Some (a_name ua)
    /\ d !! "birth_year" = Some (a_birth_year ua)
    /\ d !! "nationality" = Some (a_nationality ua)
    /\ a_created_at ua = a_created_at old
    /\ a_updated_at ua = utcnow
    /\ Dict.keys (Dict.set author_id ua (authors s)) = Dict.keys (authors s)
    /\ (forall k, k <> author_id ->
          Dict.get k (Dict.set author_id ua (authors s))
          = Dict.get k (authors s))
    /\ books (with_authors (Dict.set author_id ua) s) = books s.
Proof.
  intros Hold Hreq.
  destruct (author_fields_present d Hreq) as (v1 & v2 & v3 & H1 & H2 & H3).
  rewrite (update_author_object author_id utcnow d s old _ _ _
             Hold H1 H2 H3).
  cbv zeta. eexists. split; [reflexivity|]. simpl.
  repeat (split; [done|]). split; [|split; [|done]].
  - apply DictFacts.keys_set_present, DictFacts.contains_true. eauto.
  - intros k Hk. by apply DictFacts.get_set_ne.
Qed.

Lemma update_author_replaces_witness :
  exists ua,
    update_author "3" (seed_time + 1) (inr (JObj eric_blair)) seed
    = (with_authors (Dict.set "3" ua) seed, inr (AuthorBody ua, 200))
    /\ a_name ua = JStr "Eric Blair"
    /\ a_created_at ua = seed_time.
Proof.
  destruct (update_author_replaces "3" (seed_time + 1) eric_blair seed _
              eq_refl)
    as (ua & E & _ & Hn & _ & _ & Hc & _).
  { by required_present. }
  exists ua. split; [exact E|]. split; [|exact Hc].
  assert (Hd : eric_blair !! "name" = Some (JStr "Eric Blair"))
    by (vm_compute; reflexivity).
  congruence.
Defined.

(** ** Bodies that are not objects *)

(** X19. Only an object can create or replace a record.  On any other
    decoded body - [null], a boolean, a number, a string, a list -
    [create_book], [update_book], [create_author] and [update_author]
    store nothing and never answer 2xx: they answer 400 when the
    membership test finds a required field missing, and otherwise raise
    [TypeError], on the membership test itself or on reading the first
    field back. *)
Theorem only_objects_are_stored (uuid4 k : string) (utcnow : timestamp)
    (data : json) (s : store) :
  (forall d, data <> JObj d) ->
  refused s (create_book uuid4 utcnow (inr data) s)
  /\ (Dict.contains k (books s) = true ->
      refused s (update_book k utcnow (inr data) s))
  /\ refused s (create_author uuid4 utcnow (inr data) s)
  /\ (Dict.contains k (authors s) = true ->
      refused s (update_author k utcnow (inr data) s)).
Proof.
  intros Hd. unfold refused.
  split; [|split; [intros Hk|split; [|intros Hk]]].
  all: try (unfold create_book); try (unfold update_book);
    try (unfold create_author); try (unfold update_author);
    handler_unfold; try rewrite Hk; cbv beta iota delta [negb];
    destruct data as [| | | | |l|d]; try (by destruct (Hd d)); simpl;
    repeat (case_match; simplify_eq; simpl); eauto.
  all: apply DictFacts.contains_true in Hk as [? ?]; congruence.
Qed.

Lemma only_objects_are_stored_witness :
  (forall d, field_names <> JObj d)
  /\ refused seed (create_book "u" seed_time (inr field_names) seed)
  /\ refused seed (update_book "1" seed_time (inr field_names) seed).
Proof.
  split; [by intros d|].
  destruct (only_objects_are_stored "u" "1" seed_time field_names seed)
    as (E1 & E2 & _); [by intros d|].
  split; [exact E1 | exact (E2 eq_refl)].
Defined.

Example create_book_field_names_raises :
  create_book "u" seed_time (inr field_names) seed = (seed, inl TypeError).
Proof. vm_compute. reflexivity. Qed.

(** X20. [partial_update_book] on a body that is not an object, for an
    id of the table: if the membership test finds none of the six field
    names in it (the empty list, say), the answer is 200 and only
    [updated_at] changes; otherwise - a list or string that contains a
    field name, or a body membership cannot be tested on - [TypeError] is
    raised before anything has changed. *)
Theorem partial_update_book_non_object (book_id : string)
    (utcnow : timestamp) (data : json) (s : store) (old : book) :
  Dict.get book_id (books s) = Some old ->
  (forall d, data <> JObj d) ->
  ((forall key, key ∈ patchable_fields -> contains key data = inr false) ->
   partial_update_book book_id utcnow (inr data) s
   = (with_books (Dict.set book_id (set_updated_at utcnow old)) s,
      inr (BookBody (set_updated_at utcnow old), 200)))
  /\ ((exists key, key ∈ patchable_fields /\ contains key data <> inr false) ->
      partial_update_book book_id utcnow (inr data) s = (s, inl TypeError)).
Proof.
  intros Hold Hd.
  assert (Hin : forall key, key ∈ patchable_fields ->
                  key = "title" \/ key = "author_id" \/ key = "isbn"
                  \/ key = "published_year" \/ key = "price" \/ key = "stock").
  { intros key Hkey. unfold patchable_fields in Hkey.
    repeat (apply elem_of_cons in Hkey as [->|Hkey]; [tauto|]).
    by apply elem_of_nil in Hkey. }
  assert (Hall : forall key, key = "title" \/ key = "author_id" \/ key = "isbn"
                  \/ key = "published_year" \/ key = "price" \/ key = "stock"
                  -> key ∈ patchable_fields).
  { intros key Hkey. unfold patchable_fields.
    destruct Hkey as [-> | [-> | [-> | [-> | [-> | -> ] ] ] ] ];
      repeat first [apply list_elem_of_here | apply list_elem_of_further]. }
  split.
  - intros Hnone.
    destruct (partial_update_book_not_object _ utcnow _ _ _ Hold Hd)
      as [E|E]; [|done].
    exfalso. revert E.
    unfold partial_update_book, patch_key. handler_unfold.
    rewrite (proj2 (DictFacts.contains_true _ _)) by eauto.
    cbv beta iota delta [negb].
    rewrite !Hnone by (apply Hall; tauto). cbv beta iota.
    rewrite (with_books_alter _ _ _ _ Hold).
    unfold with_books at 1. simpl. by rewrite DictFacts.get_set_eq.
  - intros (key & Hkey & Hc).
    destruct (partial_update_book_not_object _ utcnow _ _ _ Hold Hd)
      as [E|E]; [done|].
    exfalso. revert E.
    unfold partial_update_book, patch_key. handler_unfold.
    rewrite (proj2 (DictFacts.contains_true _ _)) by eauto.
    cbv beta iota delta [negb].
    assert (Hsome : exists k0, contains k0 data <> inr false
              /\ (k0 = "title" \/ k0 = "author_id" \/ k0 = "isbn"
                  \/ k0 = "published_year" \/ k0 = "price" \/ k0 = "stock"))
      by (exists key; split; [done | by apply Hin]).
    clear Hkey Hc key.
    destruct data as [| | | | |l|d]; try (by destruct (Hd d)); simpl;
      try done; destruct Hsome as (k0 & Hk0 & Hk0in); simpl in Hk0;
      repeat (case_match; simplify_eq; simpl; try done);
      intros _; destruct Hk0in as [-> | [-> | [-> | [-> | [-> | -> ] ] ] ] ]; congruence.
Qed.

Lemma partial_update_book_non_object_witness :
  exists old,
    Dict.get "1" (books seed) = Some old
    /\ partial_update_book "1" (seed_time + 1) (inr (JArr [])) seed
       = (with_books (Dict.set "1" (set_updated_at (seed_time + 1) old)) seed,
          inr (BookBody (set_updated_at (seed_time + 1) old), 200))
    /\ partial_update_book "1" (seed_time + 1) (inr (JStr "in stock")) seed
       = (seed, inl TypeError).
Proof.
  eexists. split; [reflexivity|].
  split.
  - apply (partial_update_book_non_object "1" (seed_time + 1) (JArr []) seed
             _ eq_refl); [by intros d|].
    intros key _. reflexivity.
  - apply (partial_update_book_non_object "1" (seed_time + 1)
             (JStr "in stock") seed _ eq_refl); [by intros d|].
    exists "stock". split; [apply (bool_decide_unpack _); by vm_compute|].
    by vm_compute.
Defined.

(** ** Stamps of a single record *)

(** X21. As long as a record stays in its table, no request changes its
    [created_at] or moves its [updated_at] back: under a clock that
    reads no earlier than any stamp in the tables, and short of a POST
    being handed the record's own id again, the record found under an id
    after a request has the [created_at] it had before and an
    [updated_at] that is no earlier. *)
Theorem record_stamps_move_forward (r : request) (s : store)
    (t0 : timestamp) (k : string) :
  stamps_ordered_upto t0 s ->
  (forall t, clock_of r = Some t -> t0 <= t) ->
  uuid_of r <> Some k ->
  (forall b b',
     Dict.get k (books s) = Some b ->
     Dict.get k (books (dispatch r s).1) = Some b' ->
     b_created_at b' = b_created_at b /\ b_updated_at b <= b_updated_at b')
  /\ (forall a a',
        Dict.get k (authors s) = Some a ->
        Dict.get k (authors (dispatch r s).1) = Some a' ->
        a_created_at a' = a_created_at a
        /\ a_updated_at a <= a_updated_at a').
Proof.
  intros [Hb Ha] Hclock Huuid.
  rewrite Forall_forall in Hb. rewrite Forall_forall in Ha.
  pose proof (dispatch_effect r s) as Heff.
  assert (Hsame_b : forall b b' : book, Some b = Some b' ->
            b_created_at b' = b_created_at b
            /\ b_updated_at b <= b_updated_at b')
    by (intros ? ? [= <-]; split; [done | lia]).
  assert (Hsame_a : forall a a' : author, Some a = Some a' ->
            a_created_at a' = a_created_at a
            /\ a_updated_at a <= a_updated_at a')
    by (intros ? ? [= <-]; split; [done | lia]).
  destruct Heff as [ | k0 nb x Hx Hu _ _ _ | k0 old nb x Hx Hold _ Hc Hupd | k0
                   | k0 na x Hx Hu _ _ _ | k0 old na x Hx Hold _ Hc Hupd | k0 ];
    simpl; split; intros y y' Hy Hy';
    try (rewrite Hy in Hy'; by auto).
  - rewrite DictFacts.get_set_ne in Hy' by congruence.
    rewrite Hy in Hy'. auto.
  - destruct (decide (k0 = k)) as [->|Hne].
    + rewrite DictFacts.get_set_eq in Hy'. injection Hy' as <-.
      rewrite Hold in Hy. injection Hy as <-.
      split; [done|]. rewrite Hupd.
      specialize (Hb _ (DictFacts.get_Some_values _ _ _ Hold)).
      specialize (Hclock _ Hx). lia.
    + rewrite DictFacts.get_set_ne in Hy' by done.
      rewrite Hy in Hy'. auto.
  - destruct (decide (k0 = k)) as [->|Hne].
    + by rewrite DictFacts.get_del_eq in Hy'.
    + rewrite DictFacts.get_del_ne in Hy' by done.
      rewrite Hy in Hy'. auto.
  - rewrite DictFacts.get_set_ne in Hy' by congruence.
    rewrite Hy in Hy'. auto.
  - destruct (decide (k0 = k)) as [->|Hne].
    + rewrite DictFacts.get_set_eq in Hy'. injection Hy' as <-.
      rewrite Hold in Hy. injection Hy as <-.
      split; [done|]. rewrite Hupd.
      specialize (Ha _ (DictFacts.get_Some_values _ _ _ Hold)).
      specialize (Hclock _ Hx). lia.
    + rewrite DictFacts.get_set_ne in Hy' by done.
      rewrite Hy in Hy'. auto.
  - destruct (decide (k0 = k)) as [->|Hne].
    + by rewrite DictFacts.get_del_eq in Hy'.
    + rewrite DictFacts.get_del_ne in Hy' by done.
      rewrite Hy in Hy'. auto.
Qed.

Lemma record_stamps_move_forward_witness :
  exists b b',
    Dict.get "2" (books seed) = Some b
    /\ Dict.get "2"
         (books (dispatch (PATCH_book "2" (seed_time + 5) (inr (JObj stock_5)))
                   seed).1) = Some b'
    /\ b_created_at b' = b_created_at b
    /\ b_updated_at b <= b_updated_at b'.
Proof.
  eexists _, _. split; [reflexivity|]. split; [vm_compute; reflexivity|].
  destruct (record_stamps_move_forward
              (PATCH_book "2" (seed_time + 5) (inr (JObj stock_5)))
              seed seed_time "2") as [Hbooks _].
  - exact seed_stamps.
  - intros t [= <-]. lia.
  - discriminate.
  - apply Hbooks; [reflexivity | vm_compute; reflexivity].
Defined.

(** ** The listing, on any table *)

Lemma comprehension_inr {A : Type} (p : A -> Exc bool) (q : A -> bool)
    (l r : list A) :
  (forall x keep, p x = inr keep -> q x = keep) ->
  comprehension p l = inr r ->
  r = filter q l.
Proof.
  intros Hq. revert r. induction l as [|x l IH]; intros r; simpl.
  - by intros [= <-].
  - destruct (p x) as [e|keep] eqn:Hx; [done|].
    destruct (comprehension p l) as [e|r'] eqn:Hl; [done|].
    intros [= <-]. rewrite (IH r' eq_refl).
    rewrite filter_cons, (Hq x keep Hx). destruct keep; by case_decide.
Qed.

Lemma price_at_least_inr (m : float) (b : book) (keep : bool) :
  ge_float (b_price b) m = inr keep -> price_at_least m b = keep.
Proof. unfold price_at_least. by intros ->. Qed.

Lemma price_at_most_inr (m : float) (b : book) (keep : bool) :
  le_float (b_price b) m = inr keep -> price_at_most m b = keep.
Proof. unfold price_at_most. by intros ->. Qed.

Lemma comprehension_inl {A : Type} (p : A -> Exc bool) (l : list A)
    (e : pyexn) :
  (forall y e', p y = inl e' -> e' = TypeError) ->
  comprehension p l = inl e -> e = TypeError.
Proof.
  intros Hp. induction l as [|x l IH]; simpl; [done|].
  destruct (p x) as [e'|keep] eqn:Hx.
  - intros [= <-]. eauto.
  - destruct (comprehension p l) as [e'|r']; [|by destruct keep].
    intros [= <-]. by apply IH.
Qed.

(** X22. On every Book table, whatever the stored prices are,
    [get_books] does one of two things and changes nothing: it raises
    [TypeError], or it answers 200 with exactly the books, in table
    order, that pass the conjunctive filter (the [author_id] equality
    counting only for a non-empty parameter), and their number. *)
Theorem get_books_filters_or_raises (author_id : option string)
    (min_price max_price : option float) (s : store) :
  get_books author_id min_price max_price s = (s, inl TypeError)
  \/ get_books author_id min_price max_price s
     = (s, inr (spec_list_books (if truthy author_id then author_id else None)
                  min_price max_price (books s))).
Proof.
  unfold get_books, spec_list_books, matches. handler_unfold.
  destruct (truthy author_id) eqn:Ht;
    [destruct author_id as [a|]; [|done] |];
    destruct min_price as [mn|], max_price as [mx|]; cbn;
    repeat
      match goal with
      | |- context [comprehension ?p ?l] =>
          let E := fresh "E" in
          destruct (comprehension p l) as [e|r] eqn:E;
          [ left; f_equal; f_equal;
            first [ apply (comprehension_inl _ _ _
                             (fun y => ge_float_type_error _ _) E)
                  | apply (comprehension_inl _ _ _
                             (fun y => le_float_type_error _ _) E) ]
          | first [ apply (comprehension_inr _ (price_at_least _) _ _
                             (price_at_least_inr _)) in E
                  | apply (comprehension_inr _ (price_at_most _) _ _
                             (price_at_most_inr _)) in E ];
            subst r ]
      end;
    right; rewrite ?filter_andb;
    match goal with
    | |- (_, inr (BookList ?l1 _, _)) = (_, inr (BookList ?l2 _, _)) =>
        replace l2 with l1; [done|]
    end;
    first [ symmetry; apply filter_true
          | apply filter_ext_bool; intros b; cbn;
            by rewrite ?andb_true_r, ?andb_assoc ].
Qed.
